(** * Leaderboard-bot worker: webhook authentication and dispatch

    A shallow embedding of [src/index.ts], the Cloudflare Worker that receives
    GitHub App webhooks, checks their HMAC-SHA256 signature and forwards
    installation events as a [repository_dispatch].

    - JavaScript strings are sequences of UTF-16 code units ([list Z], every
      unit in [0, 65536)); [charCodeAt] reads one unit, or [NaN] out of range.
    - Bitwise operators work on 32-bit integers: the wrap-around of [ToInt32]
      is written out.
    - The worker's effects ([console.error], [JSON.parse], [fetch]) are
      recorded in a trace; an exception ends the run with [Throw]. *)

From stdpp Require Import base decidable option list gmap strings.
From Stdlib Require Import ZArith Lia Init.Byte.

Local Open Scope Z_scope.

(** ** JavaScript values *)

Abbreviation jsstring := (list Z).

(** A string literal of the source, as code units (ASCII only). *)
Fixpoint js (s : string) : jsstring :=
  match s with
  | EmptyString => []
  | String c s' => Z.of_N (Ascii.N_of_ascii c) :: js s'
  end.
Arguments js s%_string.

Definition is_code_unit (c : Z) : Prop := (0 ≤ c < 65536)%Z.

(** A well-formed JavaScript string: every element is a 16-bit code unit. *)
Definition wf_string (s : jsstring) : Prop := Forall is_code_unit s.

#[global] Instance is_code_unit_dec c : Decision (is_code_unit c).
Proof. unfold is_code_unit. apply _. Defined.

#[global] Instance wf_string_dec s : Decision (wf_string s).
Proof. unfold wf_string. apply _. Defined.

(** The numbers this program handles: integers, and [NaN] (what [charCodeAt]
    gives outside the string). *)
Inductive number : Type :=
| Int (z : Z)
| NaN.

(** [!s] for a string: only the empty string is falsy. *)
Definition falsy (s : jsstring) : bool :=
  match s with [] => true | _ :: _ => false end.

(** [!v] for [string | null], the result of [Headers.get]. *)
Definition falsy_opt (v : option jsstring) : bool :=
  match v with None => true | Some s => falsy s end.

(** [ToInt32] of ECMAScript: reduce modulo 2^32 into [-2^31, 2^31). *)
Definition ToInt32 (v : number) : Z :=
  match v with
  | NaN => 0
  | Int z =>
      let m := (z mod 2 ^ 32)%Z in
      if (m <? 2 ^ 31)%Z then m else (m - 2 ^ 32)%Z
  end.

(** [x ^ y] and [x | y]. *)
Definition bit_xor (x y : number) : number := Int (Z.lxor (ToInt32 x) (ToInt32 y)).
Definition bit_or (x y : number) : number := Int (Z.lor (ToInt32 x) (ToInt32 y)).

(** [x === 0] *)
Definition is_zero (x : number) : bool :=
  match x with Int z => (z =? 0)%Z | NaN => false end.

(** [s.charCodeAt(i)] *)
Definition charCodeAt (s : jsstring) (i : nat) : number :=
  match s !! i with Some c => Int c | None => NaN end.

(** [s.startsWith(pat)], returning what follows the prefix. *)
Fixpoint strip_prefix (pat s : jsstring) : option jsstring :=
  match pat, s with
  | [], _ => Some s
  | _ :: _, [] => None
  | p :: pat', c :: s' => if decide (p = c) then strip_prefix pat' s' else None
  end.

(** [s.replace(pat, rep)] with a string pattern: the FIRST occurrence of [pat],
    wherever it is in [s], is replaced; a string without it is unchanged.
    ([rep] has no [$] here, so it is inserted literally.) *)
Fixpoint String_replace (s pat rep : jsstring) : jsstring :=
  match strip_prefix pat s with
  | Some rest => rep ++ rest
  | None =>
      match s with
      | [] => []
      | c :: s' => c :: String_replace s' pat rep
      end
  end.

(** [s.padStart(n, pad)] *)
Definition String_padStart (s : jsstring) (n : nat) (pad : jsstring) : jsstring :=
  let missing := (n - length s)%nat in
  take missing (concat (replicate missing pad)) ++ s.

(** The digit characters of [Number.prototype.toString]: [0-9a-z]. *)
Definition digit_char (d : Z) : Z := if (d <? 10)%Z then (48 + d)%Z else (87 + d)%Z.

Fixpoint digits_of (fuel : nat) (radix n : Z) (acc : jsstring) : jsstring :=
  match fuel with
  | O => acc
  | S fuel' =>
      let acc' := digit_char (n mod radix) :: acc in
      if (n / radix =? 0)%Z then acc' else digits_of fuel' radix (n / radix) acc'
  end.

(** [n.toString(radix)] for an integer [n] that a JavaScript number holds
    exactly, [|n| < 2^53] (also what a template literal does with
    [radix = 10]). The worker applies it to the bytes of a digest and to HTTP
    statuses only; beyond that range numbers are rounded, and written with an
    exponent from 10^21 on, which is not modelled. *)
Definition Number_toString (n radix : Z) : jsstring :=
  let digits m := digits_of (S (Z.to_nat (Z.log2 m))) radix m [] in
  if (n <? 0)%Z then 45%Z :: digits (- n)%Z else digits n.

(** ** Platform services

    [TextEncoder.encode]: UTF-8 of a string; a surrogate pair is one code
    point, a lone surrogate is replaced by U+FFFD. *)

Definition byte_of_Z (z : Z) : byte :=
  default x00 (Byte.of_N (Z.to_N (z mod 256))).

Definition Z_of_byte (b : byte) : Z := Z.of_N (Byte.to_N b).

Definition utf8_of_code_point (c : Z) : list byte :=
  let cont x := byte_of_Z (128 + x mod 64) in
  if (c <? 128)%Z then [byte_of_Z c]
  else if (c <? 2048)%Z then [byte_of_Z (192 + c / 64); cont c]
  else if (c <? 65536)%Z then [byte_of_Z (224 + c / 4096); cont (c / 64); cont c]
  else [byte_of_Z (240 + c / 262144); cont (c / 4096); cont (c / 64); cont c].

Definition is_high_surrogate (c : Z) : bool := (55296 <=? c)%Z && (c <=? 56319)%Z.
Definition is_low_surrogate (c : Z) : bool := (56320 <=? c)%Z && (c <=? 57343)%Z.

Fixpoint TextEncoder_encode (s : jsstring) : list byte :=
  match s with
  | [] => []
  | c :: s' =>
      if is_high_surrogate c then
        match s' with
        | d :: s'' =>
            if is_low_surrogate d
            then utf8_of_code_point (65536 + (c - 55296) * 1024 + (d - 56320))
                   ++ TextEncoder_encode s''
            else utf8_of_code_point 65533 ++ TextEncoder_encode s'
        | [] => utf8_of_code_point 65533
        end
      else if is_low_surrogate c then utf8_of_code_point 65533 ++ TextEncoder_encode s'
      else utf8_of_code_point c ++ TextEncoder_encode s'
  end.

(** ** Requests, responses and the environment *)

(** The inbound [Request]: [Headers] keeps one value per lower-cased name. *)
Record Request : Type := {
  req_method : jsstring;
  req_headers : gmap jsstring jsstring;
  req_body : jsstring;
}.

(** The worker's [Response]. *)
Record Response : Type := {
  resp_body : jsstring;
  resp_status : Z;
}.

(** [interface Env] *)
Record Env : Type := {
  AUTOMATION_REPO_TRIGGER_TOKEN : jsstring;
  GITHUB_WEBHOOK_SECRET : jsstring;
}.

(** [interface DispatchPayload]; ['V] is the type of a parsed webhook body. *)
Record ClientPayload (V : Type) : Type := {
  github_event : jsstring;
  payload : V;
}.
Arguments github_event {V} _.
Arguments payload {V} _.

Record DispatchPayload (V : Type) : Type := {
  event_type : jsstring;
  client_payload : ClientPayload V;
}.
Arguments event_type {V} _.
Arguments client_payload {V} _.

(** The second argument of the outbound [fetch]. *)
Record RequestInit : Type := {
  init_method : jsstring;
  init_headers : list (jsstring * jsstring);
  init_body : jsstring;
}.

(** What the downstream endpoint answers. *)
Record FetchResponse : Type := {
  status : Z;
  text : jsstring;
}.

(** [resp.ok] *)
Definition ok (r : FetchResponse) : bool := (200 <=? status r) && (status r <=? 299).

(** What the runtime provides: WebCrypto's HMAC-SHA256 ([importKey] with a raw
    key, then [sign]); [JSON.parse] ([None]: it throws, the text is not
    JSON); [JSON.stringify] ([None]: it throws, which it does on a value nested
    deeper than the call stack allows, though [JSON.parse] reads such a text);
    and the global [fetch] ([None]: the call rejects, e.g. a network failure
    or a header value it refuses). *)
Class Platform : Type := {
  JSValue : Type;
  hmac_sha256 : list byte → list byte → list byte;
  JSON_parse : jsstring → option JSValue;
  JSON_stringify : DispatchPayload JSValue → option jsstring;
  fetch : jsstring → RequestInit → option FetchResponse;
}.

(** ** Effects: a trace of what the worker did, and exceptions *)

Inductive event : Type :=
| ConsoleError (msg : jsstring)
| JsonParse (input : jsstring)
| Fetch (url : jsstring) (init : RequestInit).

Inductive exn : Type :=
| SyntaxError   (* [JSON.parse] on a text that is not JSON *)
| RangeError    (* [JSON.stringify] on a value nested too deep *)
| TypeError.    (* [fetch] rejected *)

Inductive completion (A : Type) : Type :=
| Return (a : A)
| Throw (e : exn).
Arguments Return {A} a.
Arguments Throw {A} e.

Definition Eff (A : Type) : Type := completion A * list event.

#[global] Instance Eff_ret : MRet Eff := λ A a, (Return a, []).

#[global] Instance Eff_bind : MBind Eff := λ A B k m,
  match m with
  | (Return a, t) => let '(r, t') := k a in (r, t ++ t')
  | (Throw e, t) => (Throw e, t)
  end.

Definition outcome {A} (m : Eff A) : completion A := fst m.
Definition trace {A} (m : Eff A) : list event := snd m.

Definition console_error (msg : jsstring) : Eff unit := (Return (), [ConsoleError msg]).

Definition json_parse `{Pl : Platform} (input : jsstring) : Eff JSValue :=
  (from_option Return (Throw SyntaxError) (JSON_parse input), [JsonParse input]).

Definition json_stringify `{Pl : Platform} (value : DispatchPayload JSValue) : Eff jsstring :=
  (from_option Return (Throw RangeError) (JSON_stringify value), []).

Definition do_fetch `{Pl : Platform} (url : jsstring) (init : RequestInit) : Eff FetchResponse :=
  (from_option Return (Throw TypeError) (fetch url init), [Fetch url init]).

Definition is_fetch (e : event) : bool :=
  match e with Fetch _ _ => true | _ => false end.

Definition is_json_parse (e : event) : bool :=
  match e with JsonParse _ => true | _ => false end.

(** ** The worker *)

(** The loop of [timingSafeEqual]: [result |= a.charCodeAt(i) ^ b.charCodeAt(i)]
    while [i < a.length]. Besides [result] it returns the indices at which the
    two strings were read, in order. *)
Fixpoint xor_loop (fuel : nat) (a b : jsstring) (i : nat) (result : number)
    (reads : list nat) : number * list nat :=
  match fuel with
  | O => (result, reads)
  | S fuel' =>
      if decide (i < length a)%nat
      then xor_loop fuel' a b (S i)
             (bit_or result (bit_xor (charCodeAt a i) (charCodeAt b i)))
             (reads ++ [i])
      else (result, reads)
  end.

(** [timingSafeEqual] with its reads: the answer, and the indices visited. *)
Definition timingSafeEqual_run (a b : jsstring) : bool * list nat :=
  if negb (bool_decide (length a = length b)) then (false, [])
  else
    let '(result, reads) := xor_loop (length a) a b 0 (Int 0) [] in
    (is_zero result, reads).

Definition timingSafeEqual (a b : jsstring) : bool := fst (timingSafeEqual_run a b).

(** The value accumulated by the loop when it ends. *)
Definition xor_accumulated (a b : jsstring) : number :=
  fst (xor_loop (length a) a b 0 (Int 0) []).

Definition sha256_marker : jsstring := Eval cbv in js "sha256=".

(** [Array.from(bytes).map(b => b.toString(16).padStart(2, "0")).join("")] *)
Definition hex_of_byte (b : byte) : jsstring :=
  String_padStart (Number_toString (Z_of_byte b) 16) 2 (js "0").

Definition hex_of_bytes (bs : list byte) : jsstring := concat (map hex_of_byte bs).

Definition verifySignature `{Pl : Platform} (payload signature secret : jsstring) : Eff bool :=
  if falsy secret then
    _ ← console_error (js "GITHUB_WEBHOOK_SECRET is not configured");
    mret false
  else
    let signatureHash := String_replace signature sha256_marker [] in
    let key := TextEncoder_encode secret in   (* [importKey("raw", ...)] for HMAC with SHA-256 *)
    let signatureBytes := hmac_sha256 key (TextEncoder_encode payload) in
    let computedHash := hex_of_bytes signatureBytes in
    mret (timingSafeEqual computedHash signatureHash).

(** The hex digest of [payload] under [secret], as [verifySignature] and the
    test suite's [generateSignature] compute it. *)
Definition hmac_hex `{Pl : Platform} (secret payload : jsstring) : jsstring :=
  hex_of_bytes (hmac_sha256 (TextEncoder_encode secret) (TextEncoder_encode payload)).

Definition recognized_events : list jsstring :=
  [js "installation"; js "installation_repositories"].

Definition dispatch_url : jsstring :=
  js "https://api.github.com/repos/" ++ js "rithviknishad" ++ js "/"
    ++ js "leaderboard-bot" ++ js "/dispatches".

Definition handle `{Pl : Platform} (req : Request) (env : Env) : Eff Response :=
  if negb (bool_decide (req_method req = js "POST")) then
    mret {| resp_body := js "ok"; resp_status := 200 |}
  else
    let body := req_body req in
    let signature := req_headers req !! js "x-hub-signature-256" in
    let event := req_headers req !! js "x-github-event" in
    match event with
    | None | Some [] =>   (* [!event]: null or the empty string *)
        mret {| resp_body := js "missing x-github-event header"; resp_status := 400 |}
    | Some event =>
    match signature with
    | None | Some [] =>   (* [!signature] *)
        mret {| resp_body := js "missing x-hub-signature-256 header"; resp_status := 401 |}
    | Some signature =>
        isValid ← verifySignature body signature (GITHUB_WEBHOOK_SECRET env);
        if negb isValid then
          mret {| resp_body := js "invalid signature"; resp_status := 401 |}
        else
          payload ← json_parse body;
          if negb (bool_decide (event ∈ recognized_events)) then
            mret {| resp_body := js "event ignored"; resp_status := 200 |}
          else
            let token := AUTOMATION_REPO_TRIGGER_TOKEN env in
            if falsy token then
              mret {| resp_body := js "missing AUTOMATION_REPO_TRIGGER_TOKEN";
                      resp_status := 500 |}
            else
              let dispatchBody :=
                {| event_type := js "leaderboard-bot-installed";
                   client_payload := {| github_event := event; payload := payload |} |} in
              (* the argument of [fetch] is evaluated before the call *)
              serialized ← json_stringify dispatchBody;
              resp ← do_fetch dispatch_url
                {| init_method := js "POST";
                   init_headers :=
                     [ (js "authorization", js "token " ++ token);
                       (js "accept", js "application/vnd.github+json");
                       (js "content-type", js "application/json");
                       (js "user-agent", js "leaderboard-bot-worker") ];
                   init_body := serialized |};
              if negb (ok resp) then
                let errorText := text resp in
                _ ← console_error (js "GitHub API error: " ++ Number_toString (status resp) 10
                                     ++ js " - " ++ errorText);
                mret {| resp_body := js "dispatch failed: " ++ Number_toString (status resp) 10;
                        resp_status := 500 |}
              else
                mret {| resp_body := js "dispatched: " ++ Number_toString (status resp) 10;
                        resp_status := 200 |}
    end
    end.

(** ** A concrete platform

    HMAC-SHA256 as WebCrypto computes it (FIPS 180-4 and RFC 2104), on bytes
    as integers in [0, 256) and 32-bit words as integers in [0, 2^32). *)

Module SHA256.

Definition word (x : Z) : Z := x mod 2 ^ 32.

Definition ROTR (n x : Z) : Z := Z.lor (Z.shiftr x n) (word (Z.shiftl x (32 - n))).
Definition SHR (n x : Z) : Z := Z.shiftr x n.

Definition Ch (x y z : Z) : Z := Z.lxor (Z.land x y) (Z.land (word (Z.lnot x)) z).
Definition Maj (x y z : Z) : Z := Z.lxor (Z.lxor (Z.land x y) (Z.land x z)) (Z.land y z).
Definition Sigma0 (x : Z) : Z := Z.lxor (Z.lxor (ROTR 2 x) (ROTR 13 x)) (ROTR 22 x).
Definition Sigma1 (x : Z) : Z := Z.lxor (Z.lxor (ROTR 6 x) (ROTR 11 x)) (ROTR 25 x).
Definition sigma0 (x : Z) : Z := Z.lxor (Z.lxor (ROTR 7 x) (ROTR 18 x)) (SHR 3 x).
Definition sigma1 (x : Z) : Z := Z.lxor (Z.lxor (ROTR 17 x) (ROTR 19 x)) (SHR 10 x).

Definition primes : list Z :=
  [ 2; 3; 5; 7; 11; 13; 17; 19; 23; 29; 31; 37; 41; 43; 47; 53;
    59; 61; 67; 71; 73; 79; 83; 89; 97; 101; 103; 107; 109; 113; 127; 131;
    137; 139; 149; 151; 157; 163; 167; 173; 179; 181; 191; 193; 197; 199; 211; 223;
    227; 229; 233; 239; 241; 251; 257; 263; 269; 271; 277; 281; 283; 293; 307; 311 ].

(** The integer cube root, bit by bit from the top. *)
Fixpoint cube_root_bits (bits : nat) (n r : Z) : Z :=
  match bits with
  | O => r
  | S bits' =>
      let r' := r + 2 ^ Z.of_nat bits' in
      cube_root_bits bits' n (if r' * r' * r' <=? n then r' else r)
  end.

(** The round constants: the first 32 bits of the fractional parts of the
    cube roots of the first 64 primes. *)
Definition K : list Z :=
  Eval vm_compute in map (λ p, word (cube_root_bits 40 (p * 2 ^ 96) 0)) primes.

(** The initial hash value: the same for the square roots of the first 8. *)
Definition H0_words : list Z :=
  Eval vm_compute in map (λ p, word (Z.sqrt (p * 2 ^ 64))) (take 8 primes).

Record state : Type := State { a : Z; b : Z; c : Z; d : Z; e : Z; f : Z; g : Z; h : Z }.

Definition H0 : state :=
  let w i := nth i H0_words 0 in
  State (w 0%nat) (w 1%nat) (w 2%nat) (w 3%nat) (w 4%nat) (w 5%nat) (w 6%nat) (w 7%nat).

(** Padding: a [1] bit, zeros up to 56 modulo 64, the bit length on 8 bytes. *)
Definition be_bytes (n : nat) (x : Z) : list Z :=
  map (λ i, (x / 2 ^ (8 * Z.of_nat i)) mod 256) (rev (seq 0 n)).

Definition pad (msg : list Z) : list Z :=
  let len := Z.of_nat (length msg) in
  msg ++ [128] ++ replicate (Z.to_nat ((55 - len) mod 64)) 0 ++ be_bytes 8 (8 * len).

Fixpoint blocks (n : nat) (l : list Z) : list (list Z) :=
  match n with
  | O => []
  | S n' => take 64 l :: blocks n' (drop 64 l)
  end.

Definition be_word (bs : list Z) : Z := fold_left (λ acc x, acc * 256 + x) bs 0.

(** The message schedule, latest word first while it is built. *)
Fixpoint extend (n : nat) (w_rev : list Z) : list Z :=
  match n with
  | O => w_rev
  | S n' =>
      let w i := nth i w_rev 0 in
      extend n' (word (sigma1 (w 1%nat) + w 6%nat + sigma0 (w 14%nat) + w 15%nat) :: w_rev)
  end.

Definition schedule (block : list Z) : list Z :=
  let w16 := map (λ i, be_word (take 4 (drop (4 * i) block))) (seq 0 16) in
  rev (extend 48 (rev w16)).

Definition round (s : state) (kw : Z * Z) : state :=
  let T1 := word (h s + Sigma1 (e s) + Ch (e s) (f s) (g s) + kw.1 + kw.2) in
  let T2 := word (Sigma0 (a s) + Maj (a s) (b s) (c s)) in
  State (word (T1 + T2)) (a s) (b s) (c s) (word (d s + T1)) (e s) (f s) (g s).

Definition compress (s : state) (block : list Z) : state :=
  let s' := fold_left round (zip K (schedule block)) s in
  State (word (a s + a s')) (word (b s + b s')) (word (c s + c s')) (word (d s + d s'))
        (word (e s + e s')) (word (f s + f s')) (word (g s + g s')) (word (h s + h s')).

Definition digest (msg : list Z) : list Z :=
  let padded := pad msg in
  let s := fold_left compress (blocks (length padded / 64) padded) H0 in
  be_bytes 4 (a s) ++ be_bytes 4 (b s) ++ be_bytes 4 (c s) ++ be_bytes 4 (d s)
    ++ be_bytes 4 (e s) ++ be_bytes 4 (f s) ++ be_bytes 4 (g s) ++ be_bytes 4 (h s).

End SHA256.

(** HMAC (RFC 2104) with SHA-256: block size 64. *)
Definition HMAC_SHA256 (key msg : list byte) : list byte :=
  let key := Z_of_byte <$> key in
  let key := if decide (64 < length key)%nat then SHA256.digest key else key in
  let key := key ++ replicate (64 - length key) 0 in
  let inner := SHA256.digest (map (Z.lxor 54) key ++ (Z_of_byte <$> msg)) in
  byte_of_Z <$> SHA256.digest (map (Z.lxor 92) key ++ inner).

Definition ascii_bytes (s : string) : list byte := TextEncoder_encode (js s).
Arguments ascii_bytes s%_string.

(** A JSON document, for the test platform below. *)
#[local] Set Warnings "-register-all".
Inductive json : Type :=
| JNull
| JBool (b : bool)
| JNumber (n : Z)
| JString (s : jsstring)
| JArray (items : list json)
| JObject (members : list (jsstring * json)).

Definition quoted (s : jsstring) : jsstring := 34 :: s ++ [34].

Definition join (sep : jsstring) (parts : list jsstring) : jsstring :=
  match parts with
  | [] => []
  | p :: ps => p ++ concat (map (λ q, sep ++ q) ps)
  end.

(** Compact JSON text of a document whose strings need no escaping. *)
Fixpoint json_text (v : json) : jsstring :=
  match v with
  | JNull => js "null"
  | JBool true => js "true"
  | JBool false => js "false"
  | JNumber n => Number_toString n 10
  | JString s => quoted s
  | JArray items => js "[" ++ join (js ",") (map json_text items) ++ js "]"
  | JObject members =>
      js "{" ++ join (js ",") (map (λ m, quoted m.1 ++ js ":" ++ json_text m.2) members)
        ++ js "}"
  end.

(** The webhook bodies of the test suite. *)
Definition body_created : jsstring := json_text (JObject [(js "action", JString (js "created"))]).
Definition body_push : jsstring := json_text (JObject [(js "ref", JString (js "refs/heads/main"))]).

(** A body of 100000 nested arrays, [[[ ... ]]], and its document. *)
Definition deep_nesting : nat := S (Z.to_nat 99999).

Definition deep_body : jsstring := replicate deep_nesting 91 ++ replicate deep_nesting 93.

Definition deep_document : json :=
  Nat.iter (pred deep_nesting) (λ inner, JArray [inner]) (JArray []).

(** [JSON.parse] on the texts the examples use: the bodies above parse to
    their documents, and [not json] is not JSON. This table stands for the
    parser in the examples only; every theorem is about an arbitrary one. *)
Definition JSON_parse_table (input : jsstring) : option json :=
  if decide (input = body_created) then Some (JObject [(js "action", JString (js "created"))])
  else if decide (input = body_push) then Some (JObject [(js "ref", JString (js "refs/heads/main"))])
  else if decide (input = deep_body) then Some deep_document
  else None.

(** Whether the recursion of [JSON.stringify] on a document fits in a call
    stack of [frames] frames. *)
Fixpoint fits (frames : nat) (v : json) : bool :=
  match frames with
  | O => false
  | S frames' =>
      match v with
      | JArray items => forallb (fits frames') items
      | JObject members => forallb (λ m, fits frames' m.2) members
      | _ => true
      end
  end.

(** The stack of the examples: engines give up at a nesting of some
    thousands. The examples serialize documents of depth four, and fail on
    the one of depth 100000. *)
Definition stack_frames : nat := Z.to_nat 10000.

Definition DispatchPayload_json (p : DispatchPayload json) : json :=
  JObject [ (js "event_type", JString (event_type p));
            (js "client_payload",
              JObject [ (js "github_event", JString (github_event (client_payload p)));
                        (js "payload", payload (client_payload p)) ]) ].

(** [JSON.stringify(dispatchBody)] with that stack. *)
Definition JSON_stringify_stack (p : DispatchPayload json) : option jsstring :=
  if fits stack_frames (DispatchPayload_json p)
  then Some (json_text (DispatchPayload_json p)) else None.

(** The platform of the examples: real HMAC-SHA256, the JSON table, a
    [JSON.stringify] that throws when the document does not fit the stack,
    and a [fetch] that answers every call with [downstream] (as the mocked
    [fetch] of the test suite does). *)
Definition test_platform (downstream : option FetchResponse) : Platform :=
  {| JSValue := json;
     hmac_sha256 := HMAC_SHA256;
     JSON_parse := JSON_parse_table;
     JSON_stringify := JSON_stringify_stack;
     fetch := λ _ _, downstream |}.

Definition no_content : option FetchResponse := Some {| status := 204; text := [] |}.
Definition unauthorized : option FetchResponse :=
  Some {| status := 401; text := js "Unauthorized" |}.

Definition WEBHOOK_SECRET : jsstring := js "test-webhook-secret".

Definition test_env : Env :=
  {| AUTOMATION_REPO_TRIGGER_TOKEN := js "test-token-123";
     GITHUB_WEBHOOK_SECRET := WEBHOOK_SECRET |}.

(** [generateSignature] of the test suite. *)
Definition generateSignature `{Pl : Platform} (payload secret : jsstring) : jsstring :=
  sha256_marker ++ hmac_hex secret payload.

(** A POST with the two webhook headers. *)
Definition webhook (event signature body : jsstring) : Request :=
  {| req_method := js "POST";
     req_headers := {[ js "x-github-event" := event; js "x-hub-signature-256" := signature ]};
     req_body := body |}.

Definition no_secret_env : Env :=
  {| AUTOMATION_REPO_TRIGGER_TOKEN := js "test-token-123"; GITHUB_WEBHOOK_SECRET := [] |}.

Definition no_token_env : Env :=
  {| AUTOMATION_REPO_TRIGGER_TOKEN := []; GITHUB_WEBHOOK_SECRET := WEBHOOK_SECRET |}.

(** A webhook signed with the secret of the test suite. *)
Definition signed (event body : jsstring) : Request :=
  webhook event (generateSignature (Pl := test_platform None) body WEBHOOK_SECRET) body.

(** What [JSON.stringify(dispatchBody)] gives for the "created" installation. *)
Definition created_text : jsstring :=
  json_text
    (DispatchPayload_json
       {| event_type := js "leaderboard-bot-installed";
          client_payload :=
            {| github_event := js "installation";
               payload := JObject [(js "action", JString (js "created"))] |} |}).

(** A webhook whose signature header is there, with the empty value. *)
Definition empty_signature_request : Request := webhook (js "installation") [] body_created.

(** ** Functions used to state the properties *)

(** The loop as a fold over the pairs of code units. *)
Definition xor_fold (r : number) (pairs : list (Z * Z)) : number :=
  fold_left (λ r p, bit_or r (bit_xor (Int p.1) (Int p.2))) pairs r.

(** The value of a digit character [0-9a-z], the number a digit string spells,
    and the byte two hex digits spell. *)
Definition digit_value (c : Z) : Z := if c <? 58 then c - 48 else c - 87.

Definition digits_value (radix : Z) (s : jsstring) : Z :=
  fold_left (λ acc c, acc * radix + digit_value c) s 0.

Definition byte_of_hex (s : jsstring) : byte :=
  match s with
  | [hi; lo] => byte_of_Z (16 * digit_value hi + digit_value lo)
  | _ => x00
  end.

Definition is_hex_digit (c : Z) : Prop := 48 ≤ c ≤ 57 ∨ 97 ≤ c ≤ 102.

#[global] Instance is_hex_digit_dec c : Decision (is_hex_digit c).
Proof. unfold is_hex_digit. apply _. Defined.

(** The raw digest behind [hmac_hex]. *)
Definition hmac_digest `{Pl : Platform} (secret payload : jsstring) : list byte :=
  hmac_sha256 (TextEncoder_encode secret) (TextEncoder_encode payload).

(** HMAC-SHA256 tags have 32 bytes. *)
Definition sha256_sized (Pl : Platform) : Prop :=
  ∀ key data, length (hmac_sha256 key data) = 32%nat.

(** [handle] reaches the dispatcher: a POST whose two headers are there and
    not empty, and whose signature [verifySignature] accepts. *)
Definition authenticated `{Pl : Platform} (req : Request) (env : Env) : Prop :=
  req_method req = js "POST"
  ∧ ∃ event signature,
      req_headers req !! js "x-github-event" = Some event ∧ event ≠ []
      ∧ req_headers req !! js "x-hub-signature-256" = Some signature ∧ signature ≠ []
      ∧ outcome (verifySignature (req_body req) signature (GITHUB_WEBHOOK_SECRET env))
        = Return true.

(** The [dispatchBody] of an event type and a parsed body. *)
Definition dispatch_payload `{Pl : Platform} (event : jsstring) (v : JSValue)
    : DispatchPayload JSValue :=
  {| event_type := js "leaderboard-bot-installed";
     client_payload := {| github_event := event; payload := v |} |}.

(** The [RequestInit] of the outbound call, for a token and the serialized
    [dispatchBody]. *)
Definition dispatch_init (token serialized : jsstring) : RequestInit :=
  {| init_method := js "POST";
     init_headers :=
       [ (js "authorization", js "token " ++ token);
         (js "accept", js "application/vnd.github+json");
         (js "content-type", js "application/json");
         (js "user-agent", js "leaderboard-bot-worker") ];
     init_body := serialized |}.

(** ** The entry point, and functions used to state further properties *)

(** [export default { fetch(request, env) }]: what the runtime calls. *)
Definition worker_fetch `{Pl : Platform} (request : Request) (env : Env) : Eff Response :=
  handle request env.

Definition is_console_error (e : event) : bool :=
  match e with ConsoleError _ => true | _ => false end.

(** What [verifySignature] reports when no secret is configured. *)
Definition not_configured : jsstring := js "GITHUB_WEBHOOK_SECRET is not configured".

(** Reading a hex string back, two digits a byte. *)
Fixpoint bytes_of_hex (s : jsstring) : list byte :=
  match s with
  | hi :: lo :: s' => byte_of_hex [hi; lo] :: bytes_of_hex s'
  | _ => []
  end.

(** The request with its [x-github-event] header set to [event]. *)
Definition with_event (event : jsstring) (req : Request) : Request :=
  {| req_method := req_method req;
     req_headers := <[js "x-github-event" := event]> (req_headers req);
     req_body := req_body req |}.

(** A POST that carries both webhook headers, neither of them empty. *)
Definition carries (req : Request) (event signature : jsstring) : Prop :=
  req_method req = js "POST"
  ∧ req_headers req !! js "x-github-event" = Some event ∧ event ≠ []
  ∧ req_headers req !! js "x-hub-signature-256" = Some signature ∧ signature ≠ [].

(** The runs of [handle], one constructor per [return] and per exception of
    the source, each with the conditions under which it is taken. *)
Inductive handled `{Pl : Platform} (req : Request) (env : Env) : Eff Response → Prop :=
| handled_not_post :
    req_method req ≠ js "POST" →
    handled req env (Return {| resp_body := js "ok"; resp_status := 200 |}, [])
| handled_no_event :
    req_method req = js "POST" →
    falsy_opt (req_headers req !! js "x-github-event") = true →
    handled req env
      (Return {| resp_body := js "missing x-github-event header"; resp_status := 400 |}, [])
| handled_no_signature event :
    req_method req = js "POST" →
    req_headers req !! js "x-github-event" = Some event → event ≠ [] →
    falsy_opt (req_headers req !! js "x-hub-signature-256") = true →
    handled req env
      (Return {| resp_body := js "missing x-hub-signature-256 header"; resp_status := 401 |},
       [])
| handled_not_configured event signature :
    carries req event signature →
    GITHUB_WEBHOOK_SECRET env = [] →
    handled req env
      (Return {| resp_body := js "invalid signature"; resp_status := 401 |},
       [ConsoleError not_configured])
| handled_invalid event signature :
    carries req event signature →
    GITHUB_WEBHOOK_SECRET env ≠ [] →
    outcome (verifySignature (req_body req) signature (GITHUB_WEBHOOK_SECRET env))
    = Return false →
    handled req env (Return {| resp_body := js "invalid signature"; resp_status := 401 |}, [])
| handled_malformed event signature :
    carries req event signature →
    outcome (verifySignature (req_body req) signature (GITHUB_WEBHOOK_SECRET env))
    = Return true →
    JSON_parse (req_body req) = None →
    handled req env (Throw SyntaxError, [JsonParse (req_body req)])
| handled_ignored event signature v :
    carries req event signature →
    outcome (verifySignature (req_body req) signature (GITHUB_WEBHOOK_SECRET env))
    = Return true →
    JSON_parse (req_body req) = Some v →
    event ∉ recognized_events →
    handled req env
      (Return {| resp_body := js "event ignored"; resp_status := 200 |},
       [JsonParse (req_body req)])
| handled_no_token event signature v :
    carries req event signature →
    outcome (verifySignature (req_body req) signature (GITHUB_WEBHOOK_SECRET env))
    = Return true →
    JSON_parse (req_body req) = Some v →
    event ∈ recognized_events →
    AUTOMATION_REPO_TRIGGER_TOKEN env = [] →
    handled req env
      (Return {| resp_body := js "missing AUTOMATION_REPO_TRIGGER_TOKEN"; resp_status := 500 |},
       [JsonParse (req_body req)])
| handled_not_serialized event signature v :
    carries req event signature →
    outcome (verifySignature (req_body req) signature (GITHUB_WEBHOOK_SECRET env))
    = Return true →
    JSON_parse (req_body req) = Some v →
    event ∈ recognized_events →
    AUTOMATION_REPO_TRIGGER_TOKEN env ≠ [] →
    JSON_stringify (dispatch_payload event v) = None →
    handled req env (Throw RangeError, [JsonParse (req_body req)])
| handled_fetch_rejected event signature v serialized :
    carries req event signature →
    outcome (verifySignature (req_body req) signature (GITHUB_WEBHOOK_SECRET env))
    = Return true →
    JSON_parse (req_body req) = Some v →
    event ∈ recognized_events →
    AUTOMATION_REPO_TRIGGER_TOKEN env ≠ [] →
    JSON_stringify (dispatch_payload event v) = Some serialized →
    fetch dispatch_url (dispatch_init (AUTOMATION_REPO_TRIGGER_TOKEN env) serialized) = None →
    handled req env
      (Throw TypeError,
       [JsonParse (req_body req);
        Fetch dispatch_url (dispatch_init (AUTOMATION_REPO_TRIGGER_TOKEN env) serialized)])
| handled_dispatched event signature v serialized resp :
    carries req event signature →
    outcome (verifySignature (req_body req) signature (GITHUB_WEBHOOK_SECRET env))
    = Return true →
    JSON_parse (req_body req) = Some v →
    event ∈ recognized_events →
    AUTOMATION_REPO_TRIGGER_TOKEN env ≠ [] →
    JSON_stringify (dispatch_payload event v) = Some serialized →
    fetch dispatch_url (dispatch_init (AUTOMATION_REPO_TRIGGER_TOKEN env) serialized)
    = Some resp →
    ok resp = true →
    handled req env
      (Return {| resp_body := js "dispatched: " ++ Number_toString (status resp) 10;
                 resp_status := 200 |},
       [JsonParse (req_body req);
        Fetch dispatch_url (dispatch_init (AUTOMATION_REPO_TRIGGER_TOKEN env) serialized)])
| handled_dispatch_failed event signature v serialized resp :
    carries req event signature →
    outcome (verifySignature (req_body req) signature (GITHUB_WEBHOOK_SECRET env))
    = Return true →
    JSON_parse (req_body req) = Some v →
    event ∈ recognized_events →
    AUTOMATION_REPO_TRIGGER_TOKEN env ≠ [] →
    JSON_stringify (dispatch_payload event v) = Some serialized →
    fetch dispatch_url (dispatch_init (AUTOMATION_REPO_TRIGGER_TOKEN env) serialized)
    = Some resp →
    ok resp = false →
    handled req env
      (Return {| resp_body := js "dispatch failed: " ++ Number_toString (status resp) 10;
                 resp_status := 500 |},
       [JsonParse (req_body req);
        Fetch dispatch_url (dispatch_init (AUTOMATION_REPO_TRIGGER_TOKEN env) serialized);
        ConsoleError (js "GitHub API error: " ++ Number_toString (status resp) 10
                        ++ js " - " ++ text resp)]).

(** The test environment with another trigger token. *)
Definition other_token_env : Env :=
  {| AUTOMATION_REPO_TRIGGER_TOKEN := js "another-token"; GITHUB_WEBHOOK_SECRET := WEBHOOK_SECRET |}.

(** * Properties *)

(** ** Code units under the bitwise operators *)

Section code_units.
Implicit Types x y z : Z.

Lemma log2_code_unit z : is_code_unit z → Z.log2 z < 16.
Proof.
  intros [Hlo Hhi]. destruct (decide (z = 0)) as [->|Hz]; [done|].
  apply Z.log2_lt_pow2; lia.
Qed.

Lemma code_unit_of_log2 z : 0 ≤ z → Z.log2 z < 16 → is_code_unit z.
Proof.
  intros Hlo Hlog. split; [done|].
  destruct (decide (z = 0)) as [->|Hz]; [done|].
  change 65536 with (2 ^ 16). apply Z.log2_lt_pow2; lia.
Qed.

Lemma lxor_code_unit x y : is_code_unit x → is_code_unit y → is_code_unit (Z.lxor x y).
Proof.
  intros Hx Hy. apply code_unit_of_log2.
  - apply Z.lxor_nonneg. unfold is_code_unit in *. lia.
  - pose proof (Z.log2_lxor x y) as Hmax.
    pose proof (log2_code_unit _ Hx). pose proof (log2_code_unit _ Hy).
    unfold is_code_unit in *. lia.
Qed.

Lemma lor_code_unit x y : is_code_unit x → is_code_unit y → is_code_unit (Z.lor x y).
Proof.
  intros Hx Hy. apply code_unit_of_log2.
  - apply Z.lor_nonneg. unfold is_code_unit in *. lia.
  - pose proof (log2_code_unit _ Hx). pose proof (log2_code_unit _ Hy).
    rewrite Z.log2_lor by (unfold is_code_unit in *; lia). lia.
Qed.

(** On a code unit [ToInt32] changes nothing. *)
Lemma ToInt32_code_unit z : is_code_unit z → ToInt32 (Int z) = z.
Proof.
  intros [Hlo Hhi]. unfold ToInt32.
  rewrite Z.mod_small by lia.
  destruct (Z.ltb_spec z (2 ^ 31)); lia.
Qed.

Lemma bit_xor_code_units x y :
  is_code_unit x → is_code_unit y → bit_xor (Int x) (Int y) = Int (Z.lxor x y).
Proof. intros Hx Hy. unfold bit_xor. by rewrite !ToInt32_code_unit. Qed.

Lemma bit_or_code_units x y :
  is_code_unit x → is_code_unit y → bit_or (Int x) (Int y) = Int (Z.lor x y).
Proof. intros Hx Hy. unfold bit_or. by rewrite !ToInt32_code_unit. Qed.

End code_units.

(** ** The comparison loop *)

(** With enough fuel to reach the end of [a], the loop reads every index from
    [i] on, and accumulates every remaining pair. *)
Lemma xor_loop_unroll fuel : ∀ (a b : jsstring) i r reads,
  (i + fuel = length a)%nat → length a = length b →
  xor_loop fuel a b i r reads
  = (xor_fold r (zip (drop i a) (drop i b)), reads ++ seq i fuel).
Proof.
  induction fuel as [|fuel IH]; intros a b i r reads Hfuel Hlen; simpl.
  - rewrite (drop_ge a) by lia. by rewrite app_nil_r.
  - destruct (decide (i < length a)%nat) as [Hi|]; [|lia].
    destruct (lookup_lt_is_Some_2 a i Hi) as [x Hx].
    destruct (lookup_lt_is_Some_2 b i ltac:(lia)) as [y Hy].
    unfold charCodeAt. rewrite Hx, Hy.
    rewrite IH by lia.
    rewrite (drop_S a x i Hx), (drop_S b y i Hy). simpl.
    by rewrite <- app_assoc.
Qed.

Lemma xor_loop_full (a b : jsstring) :
  length a = length b →
  xor_loop (length a) a b 0 (Int 0) [] = (xor_fold (Int 0) (zip a b), seq 0 (length a)).
Proof. intros Hlen. by rewrite xor_loop_unroll. Qed.

(** The accumulator stays a code unit, and is zero exactly when it was zero
    and every pair so far was equal. *)
Lemma xor_fold_code_units (a : jsstring) : ∀ (b : jsstring) z,
  wf_string a → wf_string b → length a = length b → is_code_unit z →
  ∃ z', xor_fold (Int z) (zip a b) = Int z' ∧ is_code_unit z'
        ∧ (z' = 0 ↔ z = 0 ∧ a = b).
Proof.
  induction a as [|x a IH]; intros [|y b] z Ha Hb Hlen Hz; try discriminate.
  - exists z. by intuition.
  - apply Forall_cons in Ha as [Hx Ha]. apply Forall_cons in Hb as [Hy Hb].
    injection Hlen as Hlen.
    unfold xor_fold. simpl. fold xor_fold.
    rewrite bit_xor_code_units, bit_or_code_units by auto using lxor_code_unit.
    destruct (IH b (Z.lor z (Z.lxor x y)) Ha Hb Hlen) as (z' & Hfold & Hz' & Hzero);
      [by auto using lor_code_unit, lxor_code_unit|].
    exists z'. split_and!; [done..|].
    rewrite Hzero, Z.lor_eq_0_iff, Z.lxor_eq_0_iff.
    split; [intros [[-> ->] ->]|intros [-> [= -> ->]]]; done.
Qed.

Lemma xor_fold_zero_iff (a b : jsstring) :
  wf_string a → wf_string b → length a = length b →
  (xor_fold (Int 0) (zip a b) = Int 0 ↔ a = b).
Proof.
  intros Ha Hb Hlen.
  destruct (xor_fold_code_units a b 0 Ha Hb Hlen) as (z' & -> & _ & Hzero); [done|].
  split; [intros [= ->]; by apply Hzero|intros ->; f_equal; by apply Hzero].
Qed.

Lemma is_zero_true (r : number) : is_zero r = true ↔ r = Int 0.
Proof.
  destruct r as [z|]; simpl; [|done].
  rewrite Z.eqb_eq. split; [by intros ->|by intros [= ->]].
Qed.

Lemma timingSafeEqual_true_iff (a b : jsstring) :
  wf_string a → wf_string b → (timingSafeEqual a b = true ↔ a = b).
Proof.
  intros Ha Hb. unfold timingSafeEqual, timingSafeEqual_run.
  case_bool_decide as Hlen; simpl.
  - rewrite xor_loop_full by done. simpl.
    by rewrite is_zero_true, xor_fold_zero_iff.
  - split; [done|]. by intros ->.
Qed.

Lemma timingSafeEqual_length (a b : jsstring) :
  length a ≠ length b → timingSafeEqual a b = false.
Proof.
  intros Hlen. unfold timingSafeEqual, timingSafeEqual_run.
  by rewrite bool_decide_eq_false_2.
Qed.

(** C1. [timingSafeEqual(a, b)] is true exactly when [a] and [b] are the same
    string. Strings of different lengths are rejected at once, without reading
    a character. For strings of one length, equal or not, the loop reads every
    index [0 .. a.length - 1] in order (no early exit) and or-accumulates the
    xor of every pair of code units; the answer is false exactly when the
    accumulated value is not zero. *)
Theorem timingSafeEqual_spec (a b : jsstring) :
  wf_string a → wf_string b →
  (timingSafeEqual a b = true ↔ a = b)
  ∧ (length a ≠ length b → timingSafeEqual_run a b = (false, []))
  ∧ (length a = length b →
       timingSafeEqual_run a b = (is_zero (xor_accumulated a b), seq 0 (length a))
       ∧ xor_accumulated a b = xor_fold (Int 0) (zip a b)
       ∧ (timingSafeEqual a b = false ↔ xor_accumulated a b ≠ Int 0)).
Proof.
  intros Ha Hb. split; [by apply timingSafeEqual_true_iff|].
  unfold timingSafeEqual, xor_accumulated, timingSafeEqual_run. split.
  - intros Hlen. by rewrite bool_decide_eq_false_2.
  - intros Hlen. rewrite bool_decide_eq_true_2 by done.
    rewrite xor_loop_full by done. simpl. split_and!; [done..|].
    rewrite <- is_zero_true. by destruct (is_zero _).
Qed.

Lemma timingSafeEqual_spec_witness :
  wf_string (js "3aF0") ∧ wf_string (js "3aF1")
  ∧ timingSafeEqual_run (js "3aF0") (js "3aF1") = (false, [0; 1; 2; 3]%nat).
Proof.
  assert (Ha : wf_string (js "3aF0")) by (apply (bool_decide_unpack _); vm_compute; exact I).
  assert (Hb : wf_string (js "3aF1")) by (apply (bool_decide_unpack _); vm_compute; exact I).
  split_and!; [done..|].
  destruct (timingSafeEqual_spec (js "3aF0") (js "3aF1") Ha Hb) as (_ & _ & Hsame).
  destruct (Hsame eq_refl) as (Hrun & _). exact Hrun.
Defined.

(** ** [Number.prototype.toString] *)

Lemma digit_value_char d : 0 ≤ d < 36 → digit_value (digit_char d) = d.
Proof.
  intros Hd. unfold digit_value, digit_char.
  destruct (Z.ltb_spec d 10).
  - destruct (Z.ltb_spec (48 + d) 58); lia.
  - destruct (Z.ltb_spec (87 + d) 58); lia.
Qed.

Lemma digits_value_from radix (s : jsstring) : ∀ acc,
  fold_left (λ acc c, acc * radix + digit_value c) s acc
  = acc * radix ^ Z.of_nat (length s) + digits_value radix s.
Proof.
  unfold digits_value. induction s as [|c s IH]; intros acc; simpl fold_left.
  - simpl. lia.
  - rewrite IH, (IH (0 * radix + digit_value c)).
    rewrite length_cons, Nat2Z.inj_succ, Z.pow_succ_r by lia. lia.
Qed.

Lemma digits_value_cons radix c (s : jsstring) :
  digits_value radix (c :: s) = digit_value c * radix ^ Z.of_nat (length s) + digits_value radix s.
Proof. unfold digits_value at 1. simpl fold_left. by rewrite digits_value_from. Qed.

(** The fuel is enough: the digits written spell the whole number. *)
Lemma digits_of_value radix fuel : ∀ n acc,
  2 ≤ radix ≤ 36 → 0 ≤ n < 2 ^ Z.of_nat fuel →
  digits_value radix (digits_of fuel radix n acc)
  = n * radix ^ Z.of_nat (length acc) + digits_value radix acc.
Proof.
  induction fuel as [|fuel IH]; intros n acc Hr Hn.
  - simpl in *. assert (n = 0) as -> by lia. lia.
  - rewrite Nat2Z.inj_succ, Z.pow_succ_r in Hn by lia.
    pose proof (Z.div_mod n radix ltac:(lia)) as Hdiv.
    pose proof (Z.mod_pos_bound n radix ltac:(lia)) as Hmod.
    simpl digits_of. destruct (Z.eqb_spec (n / radix) 0) as [Hq|Hq].
    + rewrite digits_value_cons, digit_value_char by lia. nia.
    + rewrite IH; [|done|].
      * rewrite digits_value_cons, digit_value_char by lia.
        rewrite length_cons, Nat2Z.inj_succ, Z.pow_succ_r by lia. nia.
      * split; [apply Z.div_pos; lia|].
        apply Z.div_lt_upper_bound; [lia|]. nia.
Qed.

(** On the integers that a JavaScript number holds exactly (below 2^53) the
    digits written are enough: read back in the radix they give the number. *)
Lemma Number_toString_value n radix :
  0 ≤ n < 2 ^ 53 → 2 ≤ radix ≤ 36 → digits_value radix (Number_toString n radix) = n.
Proof.
  intros [Hn _] Hr. unfold Number_toString.
  destruct (Z.ltb_spec n 0); [lia|].
  rewrite digits_of_value; [simpl; unfold digits_value; simpl; lia|done|].
  split; [done|].
  rewrite Nat2Z.inj_succ, Z2Nat.id by apply Z.log2_nonneg.
  destruct (decide (n = 0)) as [->|Hpos]; [done|].
  apply Z.log2_spec. lia.
Qed.

Example utf8_examples :
  TextEncoder_encode [233] = [xc3; xa9]
  ∧ TextEncoder_encode [8364] = [xe2; x82; xac]
  ∧ TextEncoder_encode [55357; 56832] = [xf0; x9f; x98; x80]
  ∧ TextEncoder_encode [55296; 97] = [xef; xbf; xbd; x61].
Proof. by vm_compute. Qed.

(** ** Hex digests *)

Lemma hex_of_byte_length b : length (hex_of_byte b) = 2%nat.
Proof. destruct b; reflexivity. Qed.

Lemma byte_of_hex_of_byte b : byte_of_hex (hex_of_byte b) = b.
Proof. destruct b; reflexivity. Qed.

Lemma hex_of_byte_digits b : Forall is_hex_digit (hex_of_byte b).
Proof. destruct b; apply (bool_decide_unpack _); vm_compute; exact I. Qed.

Lemma hex_of_byte_pair b : ∃ hi lo, hex_of_byte b = [hi; lo].
Proof.
  pose proof (hex_of_byte_length b) as Hlen.
  destruct (hex_of_byte b) as [|hi [|lo [|? ?]]]; try discriminate. eauto.
Qed.

Lemma hex_of_byte_inj b1 b2 : hex_of_byte b1 = hex_of_byte b2 → b1 = b2.
Proof.
  intros Heq. rewrite <- (byte_of_hex_of_byte b1), <- (byte_of_hex_of_byte b2).
  by rewrite Heq.
Qed.

Lemma hex_of_bytes_cons b bs : hex_of_bytes (b :: bs) = hex_of_byte b ++ hex_of_bytes bs.
Proof. reflexivity. Qed.

Lemma hex_of_bytes_length bs : length (hex_of_bytes bs) = (2 * length bs)%nat.
Proof.
  induction bs as [|b bs IH]; [done|].
  rewrite hex_of_bytes_cons, length_app, hex_of_byte_length, IH. simpl. lia.
Qed.

Lemma hex_of_bytes_inj bs1 : ∀ bs2, hex_of_bytes bs1 = hex_of_bytes bs2 → bs1 = bs2.
Proof.
  induction bs1 as [|b1 bs1 IH]; intros [|b2 bs2] Heq; [done| | |].
  - apply (f_equal length) in Heq. rewrite !hex_of_bytes_length in Heq. simpl in Heq. lia.
  - apply (f_equal length) in Heq. rewrite !hex_of_bytes_length in Heq. simpl in Heq. lia.
  - rewrite !hex_of_bytes_cons in Heq.
    destruct (hex_of_byte_pair b1) as (h1 & l1 & E1).
    destruct (hex_of_byte_pair b2) as (h2 & l2 & E2).
    rewrite E1, E2 in Heq. injection Heq as -> -> Hrest.
    f_equal; [|by apply IH].
    apply hex_of_byte_inj. by rewrite E1, E2.
Qed.

Lemma hex_of_bytes_digits bs : Forall is_hex_digit (hex_of_bytes bs).
Proof.
  induction bs as [|b bs IH]; [constructor|].
  rewrite hex_of_bytes_cons. apply Forall_app. auto using hex_of_byte_digits.
Qed.

Lemma hex_digits_wf (s : jsstring) : Forall is_hex_digit s → wf_string s.
Proof.
  intros Hs. eapply Forall_impl; [exact Hs|].
  unfold is_hex_digit, is_code_unit. intros c. lia.
Qed.

Lemma hex_of_bytes_wf bs : wf_string (hex_of_bytes bs).
Proof. apply hex_digits_wf, hex_of_bytes_digits. Qed.

(** ** [String.prototype.replace] *)

Lemma String_replace_eq (s pat rep : jsstring) :
  String_replace s pat rep
  = match strip_prefix pat s with
    | Some rest => rep ++ rest
    | None => match s with [] => [] | c :: s' => c :: String_replace s' pat rep end
    end.
Proof. by destruct s. Qed.

Lemma strip_prefix_app (pat s : jsstring) : strip_prefix pat (pat ++ s) = Some s.
Proof.
  induction pat as [|p pat IH]; simpl; [by destruct s|].
  by rewrite decide_True.
Qed.

(** A string that starts with the pattern loses that prefix. *)
Lemma String_replace_prefix (pat s rep : jsstring) :
  String_replace (pat ++ s) pat rep = rep ++ s.
Proof. by rewrite String_replace_eq, strip_prefix_app. Qed.

(** Characters that cannot start the pattern are skipped: the first
    occurrence is replaced wherever it is. *)
Lemma String_replace_skip (x s pat rep : jsstring) p :
  Forall (λ c, c ≠ p) x →
  String_replace (x ++ s) (p :: pat) rep = x ++ String_replace s (p :: pat) rep.
Proof.
  induction 1 as [|c x Hc _ IH]; [done|].
  simpl. rewrite decide_False by done. by rewrite IH.
Qed.

Lemma String_replace_inside (x s pat rep : jsstring) p :
  Forall (λ c, c ≠ p) x →
  String_replace (x ++ (p :: pat) ++ s) (p :: pat) rep = x ++ rep ++ s.
Proof. intros Hx. by rewrite String_replace_skip, String_replace_prefix. Qed.

(** A string in which the pattern's first character does not occur is
    unchanged. *)
Lemma String_replace_absent (s pat rep : jsstring) p :
  Forall (λ c, c ≠ p) s → String_replace s (p :: pat) rep = s.
Proof.
  induction 1 as [|c x Hc _ IH]; [done|].
  simpl. rewrite decide_False by done. by rewrite IH.
Qed.

(** ** [verifySignature] *)

Section verify.
Context `{Pl : Platform}.
Implicit Types payload signature secret : jsstring.

Lemma verifySignature_no_secret payload signature :
  verifySignature payload signature []
  = (Return false, [ConsoleError (js "GITHUB_WEBHOOK_SECRET is not configured")]).
Proof. reflexivity. Qed.

Lemma verifySignature_secret payload signature secret :
  secret ≠ [] →
  verifySignature payload signature secret
  = (Return (timingSafeEqual (hmac_hex secret payload)
               (String_replace signature sha256_marker [])), []).
Proof. by destruct secret. Qed.

(** The verification never throws. *)
Lemma verifySignature_returns payload signature secret :
  ∃ answer, outcome (verifySignature payload signature secret) = Return answer.
Proof.
  destruct secret; [by rewrite verifySignature_no_secret; eauto|].
  rewrite verifySignature_secret by done. eauto.
Qed.

(** What the worker accepts, for a signature header made of code units. *)
Lemma verifySignature_true payload signature secret :
  wf_string (String_replace signature sha256_marker []) →
  outcome (verifySignature payload signature secret) = Return true ↔
  secret ≠ [] ∧ String_replace signature sha256_marker [] = hmac_hex secret payload.
Proof.
  intros Hwf. destruct secret as [|c secret]; [by split; [|intros []]|].
  rewrite verifySignature_secret by done. unfold outcome. simpl.
  pose proof (timingSafeEqual_true_iff (hmac_hex (c :: secret) payload)
    (String_replace signature sha256_marker []) (hex_of_bytes_wf _) Hwf) as Heq.
  split.
  - intros [= Htrue]. split; [done|]. symmetry. by apply Heq.
  - intros [_ Hsame]. f_equal. by apply Heq.
Qed.

(** A signature the worker accepts is never the empty header value. *)
Lemma valid_signature_nonempty payload signature secret :
  sha256_sized Pl →
  outcome (verifySignature payload signature secret) = Return true → signature ≠ [].
Proof.
  intros Hsize Hvalid ->. destruct secret as [|c secret]; [done|].
  rewrite verifySignature_secret in Hvalid by done.
  rewrite timingSafeEqual_length in Hvalid; [done|].
  unfold hmac_hex. rewrite hex_of_bytes_length, Hsize. done.
Qed.

Lemma hex_digit_not_s (s : jsstring) : Forall is_hex_digit s → Forall (λ c, c ≠ 115) s.
Proof.
  intros Hs. eapply Forall_impl; [exact Hs|].
  unfold is_hex_digit. intros c. lia.
Qed.

(** C2 (as amended). For a signature header generated as GitHub does,
    ["sha256=" ++ hmac_hex(S, B2)], [verifySignature(B1, header, S)] always
    returns, and it returns true exactly when the secret [S] is not empty and
    the HMAC digests of [B1] and [B2] under [S] are the same. So with a
    configured secret a body verifies against its own signature, and a body
    whose digest differs from the signed one is rejected; with an empty secret
    everything is rejected. *)
Theorem verifySignature_generateSignature (B1 B2 S : jsstring) :
  ∃ answer,
    outcome (verifySignature B1 (generateSignature B2 S) S) = Return answer
    ∧ (answer = true ↔ S ≠ [] ∧ hmac_digest S B1 = hmac_digest S B2).
Proof.
  destruct S as [|c S].
  - exists false. split; [done|]. split; [done|]. by intros [? _].
  - rewrite verifySignature_secret by done.
    unfold generateSignature. rewrite String_replace_prefix. simpl.
    eexists. split; [done|].
    rewrite timingSafeEqual_true_iff by apply hex_of_bytes_wf.
    unfold hmac_hex, hmac_digest. split.
    + by intros Heq%hex_of_bytes_inj.
    + by intros [_ ->].
Qed.

(** C4 (what the code does). The marker [sha256=] is removed wherever it first
    occurs in the header, not only in front: a header that carries the digest
    with the marker in the middle of it, after [k] hex digits, is accepted. *)
Theorem verifySignature_marker_inside (B S : jsstring) (k : nat) :
  S ≠ [] →
  outcome (verifySignature B
             (take k (hmac_hex S B) ++ sha256_marker ++ drop k (hmac_hex S B)) S)
  = Return true.
Proof.
  intros HS. rewrite verifySignature_secret by done.
  unfold sha256_marker. rewrite String_replace_inside.
  - simpl. rewrite take_drop. unfold outcome. simpl. f_equal.
    apply timingSafeEqual_true_iff; [apply hex_of_bytes_wf..|done].
  - apply hex_digit_not_s, Forall_take, hex_of_bytes_digits.
Qed.

End verify.

Lemma verifySignature_generateSignature_counterexample :
  (outcome (verifySignature (Pl := test_platform None) body_created
             (generateSignature (Pl := test_platform None) body_created []) [])
   = Return false)
  ∧ (([55296] : jsstring) ≠ [55297]
     ∧ outcome (verifySignature (Pl := test_platform None) [55296]
                  (generateSignature (Pl := test_platform None) [55297] WEBHOOK_SECRET)
                  WEBHOOK_SECRET)
       = Return true).
Proof. split; [reflexivity|]. split; [discriminate|]. vm_compute. reflexivity. Qed.

(** The same on the test suite's body and secret, the header written out. *)
Example marker_inside_accepted :
  hmac_hex (Pl := test_platform None) WEBHOOK_SECRET body_created
  = js "293d873649d99f21da446dd18c93b40c0932b30f40cf8f000d5ba9545977edd1"
  ∧ verifySignature (Pl := test_platform None) body_created
      (js "293d8736sha256=49d99f21da446dd18c93b40c0932b30f40cf8f000d5ba9545977edd1")
      WEBHOOK_SECRET
    = (Return true, []).
Proof. by vm_compute. Qed.

Lemma verifySignature_marker_inside_witness :
  WEBHOOK_SECRET ≠ []
  ∧ strip_prefix sha256_marker
      (take 8 (hmac_hex (Pl := test_platform None) WEBHOOK_SECRET body_created)
         ++ sha256_marker
         ++ drop 8 (hmac_hex (Pl := test_platform None) WEBHOOK_SECRET body_created))
    = None
  ∧ outcome (verifySignature (Pl := test_platform None) body_created
               (take 8 (hmac_hex (Pl := test_platform None) WEBHOOK_SECRET body_created)
                  ++ sha256_marker
                  ++ drop 8 (hmac_hex (Pl := test_platform None) WEBHOOK_SECRET body_created))
               WEBHOOK_SECRET)
    = Return true.
Proof.
  split; [discriminate|]. split; [vm_compute; reflexivity|].
  apply (verifySignature_marker_inside (Pl := test_platform None)). discriminate.
Defined.

(** ** [handle] *)

Section handle.
Context `{Pl : Platform}.
Implicit Types (req : Request) (env : Env) (event signature : jsstring).

Lemma verifySignature_accepts_quietly payload signature secret :
  outcome (verifySignature payload signature secret) = Return true →
  verifySignature payload signature secret = (Return true, []).
Proof.
  destruct secret as [|c secret]; [done|].
  rewrite verifySignature_secret by done. unfold outcome. simpl. by intros [= ->].
Qed.

Lemma verifySignature_rejects payload signature secret :
  outcome (verifySignature payload signature secret) ≠ Return true →
  ∃ t, verifySignature payload signature secret = (Return false, t)
       ∧ Forall (λ e, is_json_parse e = false ∧ is_fetch e = false) t.
Proof.
  destruct secret as [|c secret].
  - intros _. eexists. split; [apply verifySignature_no_secret|]. by repeat constructor.
  - rewrite verifySignature_secret by done. unfold outcome. simpl.
    destruct (timingSafeEqual _ _); [done|]. intros _. eexists. split; [done|]. constructor.
Qed.

Lemma handle_not_post req env :
  req_method req ≠ js "POST" →
  handle req env = (Return {| resp_body := js "ok"; resp_status := 200 |}, []).
Proof. intros Hm. unfold handle. by rewrite bool_decide_eq_false_2. Qed.

Lemma handle_missing_event req env :
  req_method req = js "POST" →
  falsy_opt (req_headers req !! js "x-github-event") = true →
  handle req env
  = (Return {| resp_body := js "missing x-github-event header"; resp_status := 400 |}, []).
Proof.
  intros Hm He. unfold handle. rewrite bool_decide_eq_true_2 by done.
  destruct (req_headers req !! js "x-github-event") as [[|? ?]|]; done.
Qed.

Lemma handle_missing_signature req env event :
  req_method req = js "POST" →
  req_headers req !! js "x-github-event" = Some event → event ≠ [] →
  falsy_opt (req_headers req !! js "x-hub-signature-256") = true →
  handle req env
  = (Return {| resp_body := js "missing x-hub-signature-256 header"; resp_status := 401 |}, []).
Proof.
  intros Hm He Hne Hs. unfold handle. rewrite bool_decide_eq_true_2 by done.
  rewrite He. destruct event; [done|].
  destruct (req_headers req !! js "x-hub-signature-256") as [[|? ?]|]; done.
Qed.

(** Both headers are there: the answer depends on the verification. *)
Lemma handle_invalid_signature req env event signature :
  req_method req = js "POST" →
  req_headers req !! js "x-github-event" = Some event → event ≠ [] →
  req_headers req !! js "x-hub-signature-256" = Some signature → signature ≠ [] →
  outcome (verifySignature (req_body req) signature (GITHUB_WEBHOOK_SECRET env)) ≠ Return true →
  handle req env
  = (Return {| resp_body := js "invalid signature"; resp_status := 401 |},
     trace (verifySignature (req_body req) signature (GITHUB_WEBHOOK_SECRET env))).
Proof.
  intros Hm He Hne Hs Hns Hv. unfold handle. rewrite bool_decide_eq_true_2 by done.
  rewrite He, Hs. destruct event; [done|]. destruct signature; [done|].
  destruct (verifySignature_rejects _ _ _ Hv) as (t & -> & _).
  unfold mbind, Eff_bind, mret, Eff_ret, trace. simpl. by rewrite app_nil_r.
Qed.

Lemma recognized_event_nonempty event : event ∈ recognized_events → event ≠ [].
Proof.
  unfold recognized_events. rewrite !elem_of_cons, elem_of_nil.
  by intros [->|[->|[]]].
Qed.

(** The dispatcher, once the request is authenticated: the run of [handle]
    written out case by case. *)
Lemma handle_authenticated req env event signature :
  req_method req = js "POST" →
  req_headers req !! js "x-github-event" = Some event → event ≠ [] →
  req_headers req !! js "x-hub-signature-256" = Some signature → signature ≠ [] →
  outcome (verifySignature (req_body req) signature (GITHUB_WEBHOOK_SECRET env)) = Return true →
  handle req env
  = match JSON_parse (req_body req) with
    | None => (Throw SyntaxError, [JsonParse (req_body req)])
    | Some v =>
        if bool_decide (event ∈ recognized_events) then
          if falsy (AUTOMATION_REPO_TRIGGER_TOKEN env) then
            (Return {| resp_body := js "missing AUTOMATION_REPO_TRIGGER_TOKEN";
                       resp_status := 500 |},
             [JsonParse (req_body req)])
          else
            match JSON_stringify (dispatch_payload event v) with
            | None => (Throw RangeError, [JsonParse (req_body req)])
            | Some serialized =>
                let init := dispatch_init (AUTOMATION_REPO_TRIGGER_TOKEN env) serialized in
                match fetch dispatch_url init with
                | None => (Throw TypeError, [JsonParse (req_body req); Fetch dispatch_url init])
                | Some resp =>
                    if ok resp then
                      (Return {| resp_body := js "dispatched: "
                                                ++ Number_toString (status resp) 10;
                                 resp_status := 200 |},
                       [JsonParse (req_body req); Fetch dispatch_url init])
                    else
                      (Return {| resp_body := js "dispatch failed: "
                                                ++ Number_toString (status resp) 10;
                                 resp_status := 500 |},
                       [JsonParse (req_body req); Fetch dispatch_url init;
                        ConsoleError (js "GitHub API error: "
                                        ++ Number_toString (status resp) 10
                                        ++ js " - " ++ text resp)])
                end
            end
        else
          (Return {| resp_body := js "event ignored"; resp_status := 200 |},
           [JsonParse (req_body req)])
    end.
Proof.
  intros Hm He Hne Hs Hns Hv. unfold handle. rewrite bool_decide_eq_true_2 by done.
  rewrite He, Hs. destruct event as [|e0 event]; [done|].
  destruct signature as [|s0 signature]; [done|].
  rewrite (verifySignature_accepts_quietly _ _ _ Hv).
  unfold mbind, Eff_bind, mret, Eff_ret, json_parse, json_stringify, do_fetch.
  cbn [negb app].
  destruct (JSON_parse (req_body req)) as [v|]; cbn [from_option]; [|done].
  destruct (bool_decide (e0 :: event ∈ recognized_events)); cbn [negb]; [|done].
  destruct (falsy (AUTOMATION_REPO_TRIGGER_TOKEN env)); [done|].
  fold (dispatch_payload (e0 :: event) v).
  destruct (JSON_stringify _) as [serialized|]; cbn [from_option app]; [|done].
  fold (dispatch_init (AUTOMATION_REPO_TRIGGER_TOKEN env) serialized).
  destruct (fetch _ _) as [resp|]; cbn [from_option]; [|done].
  by destruct (ok resp).
Qed.

End handle.

(** ** The concrete platform *)

Lemma be_bytes_length n x : length (SHA256.be_bytes n x) = n.
Proof. unfold SHA256.be_bytes. by rewrite length_map, length_rev, length_seq. Qed.

Lemma SHA256_digest_length msg : length (SHA256.digest msg) = 32%nat.
Proof. unfold SHA256.digest. by rewrite !length_app, !be_bytes_length. Qed.

Lemma HMAC_SHA256_length key msg : length (HMAC_SHA256 key msg) = 32%nat.
Proof. unfold HMAC_SHA256. by rewrite length_fmap, SHA256_digest_length. Qed.

Lemma test_platform_sized downstream : sha256_sized (test_platform downstream).
Proof. intros key data. apply HMAC_SHA256_length. Qed.

(** The test vectors of FIPS 180-4 and RFC 4231. *)

Example sha256_abc :
  hex_of_bytes (byte_of_Z <$> SHA256.digest (Z_of_byte <$> ascii_bytes "abc"))
  = js "ba7816bf8f01cfea414140de5dae2223b00361a396177a9cb410ff61f20015ad".
Proof. vm_compute. reflexivity. Qed.

Example hmac_rfc4231_case2 :
  hex_of_bytes (HMAC_SHA256 (ascii_bytes "Jefe") (ascii_bytes "what do ya want for nothing?"))
  = js "5bdcc146bf60754e6a042426089575c75a003f089d2739839dec58b964ec3843".
Proof. vm_compute. reflexivity. Qed.

Example hmac_rfc4231_case6 :
  hex_of_bytes (HMAC_SHA256 (replicate 131 xaa)
                  (ascii_bytes "Test Using Larger Than Block-Size Key - Hash Key First"))
  = js "60e431591ee0b67f0d8a26aacbf5b77f8e0bc6213728c5140546040f0ee37f54".
Proof. vm_compute. reflexivity. Qed.

Lemma event_header_differs : js "x-github-event" ≠ js "x-hub-signature-256".
Proof. intros H. vm_compute in H. discriminate. Qed.

Lemma webhook_event event signature body :
  req_headers (webhook event signature body) !! js "x-github-event" = Some event.
Proof. apply lookup_insert_eq. Qed.

Lemma webhook_signature event signature body :
  req_headers (webhook event signature body) !! js "x-hub-signature-256" = Some signature.
Proof.
  unfold webhook. cbn [req_headers].
  rewrite lookup_insert_ne by apply event_header_differs. apply lookup_singleton_eq.
Qed.

Lemma signed_event event body :
  req_headers (signed event body) !! js "x-github-event" = Some event.
Proof. unfold signed. apply webhook_event. Qed.

Lemma signed_signature event body :
  req_headers (signed event body) !! js "x-hub-signature-256"
  = Some (generateSignature (Pl := test_platform None) body WEBHOOK_SECRET).
Proof. unfold signed. apply webhook_signature. Qed.

(** A body verifies against the signature generated for it. *)
Lemma generateSignature_valid `{Pl : Platform} (B S : jsstring) :
  S ≠ [] → verifySignature B (generateSignature B S) S = (Return true, []).
Proof.
  intros HS. rewrite verifySignature_secret by done.
  unfold generateSignature. rewrite String_replace_prefix. simpl.
  do 2 f_equal. apply timingSafeEqual_true_iff; [apply hex_of_bytes_wf..|done].
Qed.

(** The signature does not depend on what the downstream answers. *)
Lemma hmac_sha256_test_platform downstream :
  hmac_sha256 (Platform := test_platform None)
  = hmac_sha256 (Platform := test_platform downstream).
Proof. reflexivity. Qed.

Lemma generateSignature_test_platform downstream (B S : jsstring) :
  generateSignature (Pl := test_platform None) B S
  = generateSignature (Pl := test_platform downstream) B S.
Proof.
  unfold generateSignature, hmac_hex. by rewrite (hmac_sha256_test_platform downstream).
Qed.

(** The deeply nested body: signed, parsed, and not serialized. *)
Lemma signed_deep_valid downstream :
  verifySignature (Pl := test_platform downstream) deep_body
    (generateSignature (Pl := test_platform None) deep_body WEBHOOK_SECRET) WEBHOOK_SECRET
  = (Return true, []).
Proof.
  rewrite (generateSignature_test_platform downstream).
  apply (generateSignature_valid (Pl := test_platform downstream)). discriminate.
Qed.

Lemma deep_body_head : take 1 deep_body = [91].
Proof. unfold deep_body, deep_nesting. by cbn [replicate app take]. Qed.

Lemma body_heads : take 1 body_created = [123] ∧ take 1 body_push = [123].
Proof. by vm_compute. Qed.

Lemma JSON_parse_deep downstream :
  JSON_parse (Platform := test_platform downstream) deep_body = Some deep_document.
Proof.
  change (JSON_parse_table deep_body = Some deep_document). unfold JSON_parse_table.
  destruct body_heads as [Hcreated Hpush].
  rewrite decide_False.
  2: { intros H. apply (f_equal (take 1)) in H.
       rewrite deep_body_head, Hcreated in H. discriminate. }
  rewrite decide_False.
  2: { intros H. apply (f_equal (take 1)) in H.
       rewrite deep_body_head, Hpush in H. discriminate. }
  by rewrite decide_True.
Qed.

Lemma deep_document_does_not_fit event :
  fits stack_frames
    (DispatchPayload_json
       {| event_type := js "leaderboard-bot-installed";
          client_payload := {| github_event := event; payload := deep_document |} |})
  = false.
Proof.
  change (fits (S (S (S (Z.to_nat 9997))))
            (DispatchPayload_json
               {| event_type := js "leaderboard-bot-installed";
                  client_payload := {| github_event := event; payload := deep_document |} |})
          = false).
  cbn [fits DispatchPayload_json forallb snd event_type client_payload github_event payload
       andb].
  rewrite andb_true_r. vm_compute. reflexivity.
Qed.

Lemma push_unrecognized : js "push" ∉ recognized_events.
Proof. apply (bool_decide_unpack _). vm_compute. exact I. Qed.

(** The scenarios of the test suite, run on the model. *)

Example test_get_ok :
  handle (Pl := test_platform None)
    {| req_method := js "GET"; req_headers := ∅; req_body := [] |} test_env
  = (Return {| resp_body := js "ok"; resp_status := 200 |}, []).
Proof. reflexivity. Qed.

Example test_invalid_signature :
  handle (Pl := test_platform None)
    (webhook (js "installation") (js "sha256=invalid-signature") body_created) test_env
  = (Return {| resp_body := js "invalid signature"; resp_status := 401 |}, []).
Proof. vm_compute. reflexivity. Qed.

Example test_ignored_event :
  handle (Pl := test_platform None) (signed (js "push") body_push) test_env
  = (Return {| resp_body := js "event ignored"; resp_status := 200 |}, [JsonParse body_push]).
Proof. vm_compute. reflexivity. Qed.

Example test_dispatched :
  outcome (handle (Pl := test_platform no_content) (signed (js "installation") body_created)
             test_env)
  = Return {| resp_body := js "dispatched: 204"; resp_status := 200 |}.
Proof. vm_compute. reflexivity. Qed.

Example test_dispatch_failed :
  outcome (handle (Pl := test_platform unauthorized) (signed (js "installation") body_created)
             test_env)
  = Return {| resp_body := js "dispatch failed: 401"; resp_status := 500 |}.
Proof. vm_compute. reflexivity. Qed.

Example test_signed_is_valid :
  outcome (verifySignature (Pl := test_platform None) body_created
             (generateSignature (Pl := test_platform None) body_created WEBHOOK_SECRET)
             WEBHOOK_SECRET)
  = Return true.
Proof. vm_compute. reflexivity. Qed.

(** ** The claims about [handle] *)

Section claims.
Context `{Pl : Platform}.
Implicit Types (req : Request) (env : Env) (event signature : jsstring).

(** C3 (as amended). For a POST whose two required headers are there with
    non-empty values: when the configured secret is the empty string the
    verification fails for every body and every signature header value, the
    configuration error is reported on [console.error], and the response is
    401 "invalid signature". *)
Theorem empty_secret_invalid_signature req env event signature :
  req_method req = js "POST" →
  req_headers req !! js "x-github-event" = Some event → event ≠ [] →
  req_headers req !! js "x-hub-signature-256" = Some signature → signature ≠ [] →
  GITHUB_WEBHOOK_SECRET env = [] →
  (∀ body header,
     verifySignature body header (GITHUB_WEBHOOK_SECRET env)
     = (Return false, [ConsoleError (js "GITHUB_WEBHOOK_SECRET is not configured")]))
  ∧ handle req env
    = (Return {| resp_body := js "invalid signature"; resp_status := 401 |},
       [ConsoleError (js "GITHUB_WEBHOOK_SECRET is not configured")]).
Proof.
  intros Hm He Hne Hs Hns Hsecret. split.
  - intros body header. rewrite Hsecret. apply verifySignature_no_secret.
  - rewrite (handle_invalid_signature req env event signature) by (by rewrite ?Hsecret).
    by rewrite Hsecret.
Qed.

(** C5 (as amended). A POST whose [x-github-event] header is there and whose
    [x-hub-signature-256] header is there but empty is answered like one
    without the signature header: 401 "missing x-hub-signature-256 header";
    the signature verification is not run (nothing is reported). *)
Theorem empty_signature_header_is_missing req env event :
  req_method req = js "POST" →
  req_headers req !! js "x-github-event" = Some event → event ≠ [] →
  req_headers req !! js "x-hub-signature-256" = Some [] →
  handle req env
  = (Return {| resp_body := js "missing x-hub-signature-256 header"; resp_status := 401 |}, []).
Proof.
  intros Hm He Hne Hs. apply (handle_missing_signature req env event); [done..|].
  by rewrite Hs.
Qed.

(** C6 (as amended). For a POST with a valid signature, a body that
    [JSON.parse] accepts, and a non-empty [x-github-event] value outside
    {installation, installation_repositories}: the response is 200
    "event ignored" and no outbound call is made. *)
Theorem unrecognized_event_ignored req env event signature v :
  sha256_sized Pl →
  req_method req = js "POST" →
  req_headers req !! js "x-github-event" = Some event → event ≠ [] →
  event ∉ recognized_events →
  req_headers req !! js "x-hub-signature-256" = Some signature →
  outcome (verifySignature (req_body req) signature (GITHUB_WEBHOOK_SECRET env)) = Return true →
  JSON_parse (req_body req) = Some v →
  outcome (handle req env) = Return {| resp_body := js "event ignored"; resp_status := 200 |}
  ∧ filter is_fetch (trace (handle req env)) = [].
Proof.
  intros Hsize Hm He Hne Hev Hs Hv Hparse.
  rewrite (handle_authenticated req env event signature)
    by eauto using valid_signature_nonempty.
  rewrite Hparse, bool_decide_eq_false_2 by done. done.
Qed.

(** C7 (as amended). For a POST with a recognized event type, a valid
    signature, a body that parses to a value [JSON.stringify] can serialize,
    and a non-empty trigger token, the trace holds one outbound call: a POST
    to the dispatch URL whose body is the JSON serialization of
    [{ event_type: "leaderboard-bot-installed", client_payload:
    { github_event: <header value>, payload: <parsed body> } }], the parsed
    body being passed on as it is. *)
Theorem dispatch_payload_forwarded req env event signature v serialized :
  sha256_sized Pl →
  req_method req = js "POST" →
  req_headers req !! js "x-github-event" = Some event →
  event ∈ recognized_events →
  req_headers req !! js "x-hub-signature-256" = Some signature →
  outcome (verifySignature (req_body req) signature (GITHUB_WEBHOOK_SECRET env)) = Return true →
  JSON_parse (req_body req) = Some v →
  AUTOMATION_REPO_TRIGGER_TOKEN env ≠ [] →
  JSON_stringify
    {| event_type := js "leaderboard-bot-installed";
       client_payload := {| github_event := event; payload := v |} |}
  = Some serialized →
  ∃ init,
    filter is_fetch (trace (handle req env)) = [Fetch dispatch_url init]
    ∧ init_method init = js "POST"
    ∧ init_body init = serialized.
Proof.
  intros Hsize Hm He Hev Hs Hv Hparse Htoken Hser.
  pose proof (recognized_event_nonempty _ Hev) as Hne.
  rewrite (handle_authenticated req env event signature)
    by eauto using valid_signature_nonempty.
  rewrite Hparse, bool_decide_eq_true_2 by done.
  destruct (AUTOMATION_REPO_TRIGGER_TOKEN env) as [|t0 token] eqn:Etoken; [done|].
  cbn [falsy]. unfold dispatch_payload. rewrite Hser. cbv zeta.
  exists (dispatch_init (t0 :: token) serialized). split; [|done].
  destruct (fetch _ _) as [resp|]; [destruct (ok resp)|]; done.
Qed.

(** C8 (as amended). Under the same conditions (the parsed body being one
    that [JSON.stringify] can serialize) exactly one outbound call is
    attempted, whatever it gives. If the downstream status is 2xx the response
    is 200 "dispatched: <status>"; otherwise the failure is reported on
    [console.error] and the response is 500 "dispatch failed: <status>". *)
Theorem dispatch_once req env event signature v serialized :
  sha256_sized Pl →
  req_method req = js "POST" →
  req_headers req !! js "x-github-event" = Some event →
  event ∈ recognized_events →
  req_headers req !! js "x-hub-signature-256" = Some signature →
  outcome (verifySignature (req_body req) signature (GITHUB_WEBHOOK_SECRET env)) = Return true →
  JSON_parse (req_body req) = Some v →
  AUTOMATION_REPO_TRIGGER_TOKEN env ≠ [] →
  JSON_stringify
    {| event_type := js "leaderboard-bot-installed";
       client_payload := {| github_event := event; payload := v |} |}
  = Some serialized →
  ∃ url init,
    filter is_fetch (trace (handle req env)) = [Fetch url init]
    ∧ ∀ resp, fetch url init = Some resp →
        (200 ≤ status resp ≤ 299 →
           outcome (handle req env)
           = Return {| resp_body := js "dispatched: " ++ Number_toString (status resp) 10;
                       resp_status := 200 |})
        ∧ (¬ 200 ≤ status resp ≤ 299 →
             outcome (handle req env)
             = Return {| resp_body := js "dispatch failed: "
                                        ++ Number_toString (status resp) 10;
                         resp_status := 500 |}
             ∧ ConsoleError (js "GitHub API error: " ++ Number_toString (status resp) 10
                               ++ js " - " ++ text resp)
               ∈ trace (handle req env)).
Proof.
  intros Hsize Hm He Hev Hs Hv Hparse Htoken Hser.
  pose proof (recognized_event_nonempty _ Hev) as Hne.
  rewrite (handle_authenticated req env event signature)
    by eauto using valid_signature_nonempty.
  rewrite Hparse, bool_decide_eq_true_2 by done.
  destruct (AUTOMATION_REPO_TRIGGER_TOKEN env) as [|t0 token] eqn:Etoken; [done|].
  cbn [falsy]. unfold dispatch_payload. rewrite Hser. cbv zeta.
  exists dispatch_url, (dispatch_init (t0 :: token) serialized).
  destruct (fetch _ _) as [resp|] eqn:Efetch.
  - assert (ok resp = true ↔ 200 ≤ status resp ≤ 299) as Hok.
    { unfold ok. rewrite andb_true_iff, !Z.leb_le. done. }
    destruct (ok resp) eqn:Eok.
    + split; [done|]. intros resp' [= <-]. split; [done|].
      intros Hno. exfalso. by apply Hno, Hok.
    + split; [done|]. intros resp' [= <-]. split.
      * intros Hyes. apply Hok in Hyes. done.
      * intros _. split; [done|]. unfold trace. simpl.
        rewrite !elem_of_cons. auto.
  - split; [done|]. intros resp [=].
Qed.

(** When the parsed body cannot be serialized, [JSON.stringify] throws before
    [fetch] is entered: no call is made and no response is produced. *)
Lemma dispatch_not_serialized req env event signature v :
  sha256_sized Pl →
  req_method req = js "POST" →
  req_headers req !! js "x-github-event" = Some event →
  event ∈ recognized_events →
  req_headers req !! js "x-hub-signature-256" = Some signature →
  outcome (verifySignature (req_body req) signature (GITHUB_WEBHOOK_SECRET env)) = Return true →
  JSON_parse (req_body req) = Some v →
  AUTOMATION_REPO_TRIGGER_TOKEN env ≠ [] →
  JSON_stringify (dispatch_payload event v) = None →
  handle req env = (Throw RangeError, [JsonParse (req_body req)]).
Proof.
  intros Hsize Hm He Hev Hs Hv Hparse Htoken Hser.
  pose proof (recognized_event_nonempty _ Hev) as Hne.
  rewrite (handle_authenticated req env event signature)
    by eauto using valid_signature_nonempty.
  rewrite Hparse, bool_decide_eq_true_2, Hser by done.
  by destruct (AUTOMATION_REPO_TRIGGER_TOKEN env).
Qed.

(** C9. For a POST with a recognized event type, a valid signature and a body
    that parses, an empty trigger token gives 500
    "missing AUTOMATION_REPO_TRIGGER_TOKEN", and no outbound call. *)
Theorem missing_trigger_token req env event signature v :
  sha256_sized Pl →
  req_method req = js "POST" →
  req_headers req !! js "x-github-event" = Some event →
  event ∈ recognized_events →
  req_headers req !! js "x-hub-signature-256" = Some signature →
  outcome (verifySignature (req_body req) signature (GITHUB_WEBHOOK_SECRET env)) = Return true →
  JSON_parse (req_body req) = Some v →
  AUTOMATION_REPO_TRIGGER_TOKEN env = [] →
  outcome (handle req env)
  = Return {| resp_body := js "missing AUTOMATION_REPO_TRIGGER_TOKEN"; resp_status := 500 |}
  ∧ filter is_fetch (trace (handle req env)) = [].
Proof.
  intros Hsize Hm He Hev Hs Hv Hparse Htoken.
  pose proof (recognized_event_nonempty _ Hev) as Hne.
  rewrite (handle_authenticated req env event signature)
    by eauto using valid_signature_nonempty.
  by rewrite Hparse, bool_decide_eq_true_2, Htoken by done.
Qed.

End claims.

Section parse.
Context `{Pl : Platform}.
Implicit Types (req : Request) (env : Env).

(** Case analysis on a hypothesis [H : e ∈ [e1; ...; en]]. *)
Ltac trace_cases H :=
  unfold trace in H; cbn [snd] in H;
  repeat (apply elem_of_cons in H as [H|H]);
  try (by apply elem_of_nil in H); try discriminate H; try (injection H as ->).

(** C10. [JSON.parse] is called on the body only in an authenticated run: a
    POST with both headers present (and not empty) whose signature
    [verifySignature] accepted. A request that is not authenticated is
    answered with a response, never with an exception, and its body is not
    parsed: the fault of a malformed body cannot be reached without a valid
    signature. *)
Theorem parse_only_after_authentication req env :
  (∀ input, JsonParse input ∈ trace (handle req env) →
            input = req_body req ∧ authenticated req env)
  ∧ (¬ authenticated req env →
       (∃ r, outcome (handle req env) = Return r)
       ∧ filter is_json_parse (trace (handle req env)) = []).
Proof.
  destruct (decide (req_method req = js "POST")) as [Hm|Hm];
    [|rewrite handle_not_post by done; split; [intros ? Hin; trace_cases Hin|eauto]].
  destruct (req_headers req !! js "x-github-event") as [event|] eqn:He;
    [destruct (decide (event = [])) as [->|Hne]|];
    try (rewrite handle_missing_event by (by rewrite ?He);
         split; [intros ? Hin; trace_cases Hin|eauto]).
  destruct (req_headers req !! js "x-hub-signature-256") as [signature|] eqn:Hs;
    [destruct (decide (signature = [])) as [->|Hns]|];
    try (rewrite (handle_missing_signature req env event) by (by rewrite ?Hs);
         split; [intros ? Hin; trace_cases Hin|eauto]).
  destruct (verifySignature_returns (req_body req) signature (GITHUB_WEBHOOK_SECRET env))
    as [[|] Hv].
  - assert (authenticated req env) as Hauth.
    { split; [done|]. exists event, signature. by rewrite He, Hs. }
    split; [|done]. intros input Hin. split; [|done].
    rewrite (handle_authenticated req env event signature) in Hin by done.
    destruct (JSON_parse (req_body req)); [|by trace_cases Hin].
    destruct (bool_decide _); [|by trace_cases Hin].
    destruct (falsy _); [by trace_cases Hin|].
    destruct (JSON_stringify _) as [serialized|]; [|by trace_cases Hin].
    cbv zeta in Hin.
    destruct (fetch _ _) as [resp|]; [destruct (ok resp)|]; by trace_cases Hin.
  - assert (outcome (verifySignature (req_body req) signature (GITHUB_WEBHOOK_SECRET env))
            ≠ Return true) as Hno by (by rewrite Hv).
    rewrite (handle_invalid_signature req env event signature) by done.
    destruct (GITHUB_WEBHOOK_SECRET env) as [|c secret].
    + rewrite verifySignature_no_secret. split; [intros ? Hin; trace_cases Hin|eauto].
    + rewrite verifySignature_secret by done. split; [intros ? Hin; trace_cases Hin|eauto].
Qed.

End parse.

(** ** Instances of the theorems, and where the original claims fail *)

Lemma signed_deep_not_serialized downstream event :
  event ∈ recognized_events →
  handle (Pl := test_platform downstream) (signed event deep_body) test_env
  = (Throw RangeError, [JsonParse deep_body]).
Proof.
  intros Hev.
  apply (dispatch_not_serialized (Pl := test_platform downstream) (signed event deep_body)
           test_env event
           (generateSignature (Pl := test_platform None) deep_body WEBHOOK_SECRET)
           deep_document).
  - apply test_platform_sized.
  - reflexivity.
  - apply signed_event.
  - done.
  - apply signed_signature.
  - exact (f_equal fst (signed_deep_valid downstream)).
  - apply JSON_parse_deep.
  - discriminate.
  - change (JSON_stringify_stack (dispatch_payload (Pl := test_platform downstream)
                                    event deep_document) = None).
    unfold JSON_stringify_stack, dispatch_payload.
    by rewrite deep_document_does_not_fit.
Qed.


Lemma empty_secret_invalid_signature_witness :
  handle (Pl := test_platform None)
    (webhook (js "installation") (js "sha256=somehash") body_created) no_secret_env
  = (Return {| resp_body := js "invalid signature"; resp_status := 401 |},
     [ConsoleError (js "GITHUB_WEBHOOK_SECRET is not configured")]).
Proof.
  refine (proj2 (empty_secret_invalid_signature (Pl := test_platform None)
            (webhook (js "installation") (js "sha256=somehash") body_created) no_secret_env
            (js "installation") (js "sha256=somehash") _ _ _ _ _ _)).
  - reflexivity.
  - vm_compute. reflexivity.
  - discriminate.
  - vm_compute. reflexivity.
  - discriminate.
  - reflexivity.
Defined.

(** C3 as it was stated fails on a request that carries both headers, the
    signature one with an empty value: the answer is not "invalid signature",
    and nothing is reported. *)
Lemma empty_secret_counterexample :
  req_method empty_signature_request = js "POST"
  ∧ req_headers empty_signature_request !! js "x-github-event" = Some (js "installation")
  ∧ req_headers empty_signature_request !! js "x-hub-signature-256" = Some []
  ∧ GITHUB_WEBHOOK_SECRET no_secret_env = []
  ∧ handle (Pl := test_platform None) empty_signature_request no_secret_env
    = (Return {| resp_body := js "missing x-hub-signature-256 header"; resp_status := 401 |},
       []).
Proof. split_and!; vm_compute; reflexivity. Qed.

Lemma empty_signature_header_is_missing_witness :
  handle (Pl := test_platform None) (webhook (js "push") [] body_push) test_env
  = (Return {| resp_body := js "missing x-hub-signature-256 header"; resp_status := 401 |}, []).
Proof.
  refine (empty_signature_header_is_missing (Pl := test_platform None)
            (webhook (js "push") [] body_push) test_env (js "push") _ _ _ _).
  - reflexivity.
  - vm_compute. reflexivity.
  - discriminate.
  - vm_compute. reflexivity.
Defined.

(** C5 as it was stated fails: with the secret configured, the empty
    signature header is answered as a missing header, not as an invalid
    signature. *)
Lemma empty_signature_header_counterexample :
  req_headers empty_signature_request !! js "x-github-event" = Some (js "installation")
  ∧ req_headers empty_signature_request !! js "x-hub-signature-256" = Some []
  ∧ outcome (handle (Pl := test_platform None) empty_signature_request test_env)
    = Return {| resp_body := js "missing x-hub-signature-256 header"; resp_status := 401 |}
  ∧ js "missing x-hub-signature-256 header" ≠ js "invalid signature".
Proof. split_and!; [vm_compute; reflexivity..|discriminate]. Qed.

Lemma unrecognized_event_ignored_witness :
  outcome (handle (Pl := test_platform None) (signed (js "push") body_push) test_env)
  = Return {| resp_body := js "event ignored"; resp_status := 200 |}
  ∧ filter is_fetch (trace (handle (Pl := test_platform None) (signed (js "push") body_push)
                              test_env)) = [].
Proof.
  refine (unrecognized_event_ignored (Pl := test_platform None)
            (signed (js "push") body_push) test_env (js "push")
            (generateSignature (Pl := test_platform None) body_push WEBHOOK_SECRET)
            (JObject [(js "ref", JString (js "refs/heads/main"))]) _ _ _ _ _ _ _ _).
  - apply test_platform_sized.
  - reflexivity.
  - vm_compute. reflexivity.
  - discriminate.
  - apply push_unrecognized.
  - vm_compute. reflexivity.
  - vm_compute. reflexivity.
  - vm_compute. reflexivity.
Defined.

(** C6 as it was stated fails on a body that is not JSON: the signature is
    valid and the event type is not recognized, yet [JSON.parse] throws before
    the event type is looked at. *)
Lemma unrecognized_event_counterexample :
  outcome (verifySignature (Pl := test_platform None) (js "not json")
             (generateSignature (Pl := test_platform None) (js "not json") WEBHOOK_SECRET)
             WEBHOOK_SECRET)
  = Return true
  ∧ (js "push" ∉ recognized_events)
  ∧ handle (Pl := test_platform None) (signed (js "push") (js "not json")) test_env
    = (Throw SyntaxError, [JsonParse (js "not json")]).
Proof.
  split_and!; [vm_compute; reflexivity|apply push_unrecognized|vm_compute; reflexivity].
Qed.

Lemma dispatch_payload_forwarded_witness :
  ∃ init,
    filter is_fetch (trace (handle (Pl := test_platform no_content)
                              (signed (js "installation") body_created) test_env))
    = [Fetch dispatch_url init]
    ∧ init_method init = js "POST"
    ∧ init_body init
      = json_text
          (DispatchPayload_json
             {| event_type := js "leaderboard-bot-installed";
                client_payload :=
                  {| github_event := js "installation";
                     payload := JObject [(js "action", JString (js "created"))] |} |}).
Proof.
  refine (dispatch_payload_forwarded (Pl := test_platform no_content)
            (signed (js "installation") body_created) test_env (js "installation")
            (generateSignature (Pl := test_platform None) body_created WEBHOOK_SECRET)
            (JObject [(js "action", JString (js "created"))]) _ _ _ _ _ _ _ _ _ _).
  - apply test_platform_sized.
  - reflexivity.
  - vm_compute. reflexivity.
  - apply list_elem_of_here.
  - vm_compute. reflexivity.
  - vm_compute. reflexivity.
  - vm_compute. reflexivity.
  - discriminate.
  - vm_compute. reflexivity.
Defined.

(** C7 as it was stated fails on a validly signed body of 100000 nested
    arrays: [JSON.parse] reads it, [JSON.stringify] overflows the stack on the
    value, and there is no outbound POST whose body could be compared. *)
Lemma dispatch_payload_counterexample :
  outcome (verifySignature (Pl := test_platform no_content) deep_body
             (generateSignature (Pl := test_platform None) deep_body WEBHOOK_SECRET)
             WEBHOOK_SECRET)
  = Return true
  ∧ js "installation" ∈ recognized_events
  ∧ JSON_parse (Platform := test_platform no_content) deep_body = Some deep_document
  ∧ AUTOMATION_REPO_TRIGGER_TOKEN test_env ≠ []
  ∧ filter is_fetch
      (trace (handle (Pl := test_platform no_content)
                (signed (js "installation") deep_body) test_env))
    = [].
Proof.
  split_and!.
  - exact (f_equal fst (signed_deep_valid no_content)).
  - apply list_elem_of_here.
  - apply JSON_parse_deep.
  - discriminate.
  - rewrite (signed_deep_not_serialized no_content (js "installation"))
      by apply list_elem_of_here.
    reflexivity.
Qed.

Lemma dispatch_once_witness :
  ∃ url init,
    filter is_fetch (trace (handle (Pl := test_platform unauthorized)
                              (signed (js "installation") body_created) test_env))
    = [Fetch url init]
    ∧ outcome (handle (Pl := test_platform unauthorized)
                 (signed (js "installation") body_created) test_env)
      = Return {| resp_body := js "dispatch failed: 401"; resp_status := 500 |}.
Proof.
  destruct (dispatch_once (Pl := test_platform unauthorized)
              (signed (js "installation") body_created) test_env (js "installation")
              (generateSignature (Pl := test_platform None) body_created WEBHOOK_SECRET)
              (JObject [(js "action", JString (js "created"))])
              (json_text
                 (DispatchPayload_json
                    {| event_type := js "leaderboard-bot-installed";
                       client_payload :=
                         {| github_event := js "installation";
                            payload := JObject [(js "action", JString (js "created"))] |} |})))
    as (url & init & Hcalls & Hresp).
  - apply test_platform_sized.
  - reflexivity.
  - vm_compute. reflexivity.
  - apply list_elem_of_here.
  - vm_compute. reflexivity.
  - vm_compute. reflexivity.
  - vm_compute. reflexivity.
  - discriminate.
  - vm_compute. reflexivity.
  - exists url, init. split; [exact Hcalls|].
    destruct (Hresp {| status := 401; text := js "Unauthorized" |} eq_refl) as [_ Hfail].
    destruct Hfail as [Hout _]; [simpl; lia|]. exact Hout.
Defined.

(** C8 as it was stated fails on the same kind of request: not one outbound
    call but none, and no response, since [JSON.stringify] throws before
    [fetch] is entered. *)
Lemma dispatch_once_counterexample :
  outcome (verifySignature (Pl := test_platform no_content) deep_body
             (generateSignature (Pl := test_platform None) deep_body WEBHOOK_SECRET)
             WEBHOOK_SECRET)
  = Return true
  ∧ js "installation_repositories" ∈ recognized_events
  ∧ JSON_parse (Platform := test_platform no_content) deep_body = Some deep_document
  ∧ AUTOMATION_REPO_TRIGGER_TOKEN test_env ≠ []
  ∧ outcome (handle (Pl := test_platform no_content)
               (signed (js "installation_repositories") deep_body) test_env)
    = Throw RangeError
  ∧ length (filter is_fetch
              (trace (handle (Pl := test_platform no_content)
                        (signed (js "installation_repositories") deep_body) test_env)))
    = 0%nat.
Proof.
  assert (js "installation_repositories" ∈ recognized_events) as Hev
    by apply list_elem_of_further, list_elem_of_here.
  split_and!.
  - exact (f_equal fst (signed_deep_valid no_content)).
  - done.
  - apply JSON_parse_deep.
  - discriminate.
  - by rewrite (signed_deep_not_serialized no_content (js "installation_repositories")).
  - by rewrite (signed_deep_not_serialized no_content (js "installation_repositories")).
Qed.

Lemma missing_trigger_token_witness :
  outcome (handle (Pl := test_platform no_content)
             (signed (js "installation") body_created) no_token_env)
  = Return {| resp_body := js "missing AUTOMATION_REPO_TRIGGER_TOKEN"; resp_status := 500 |}
  ∧ filter is_fetch (trace (handle (Pl := test_platform no_content)
                              (signed (js "installation") body_created) no_token_env)) = [].
Proof.
  refine (missing_trigger_token (Pl := test_platform no_content)
            (signed (js "installation") body_created) no_token_env (js "installation")
            (generateSignature (Pl := test_platform None) body_created WEBHOOK_SECRET)
            (JObject [(js "action", JString (js "created"))]) _ _ _ _ _ _ _ _).
  - apply test_platform_sized.
  - reflexivity.
  - vm_compute. reflexivity.
  - apply list_elem_of_here.
  - vm_compute. reflexivity.
  - vm_compute. reflexivity.
  - vm_compute. reflexivity.
  - reflexivity.
Defined.

Lemma parse_only_after_authentication_witness :
  authenticated (Pl := test_platform None) (signed (js "push") body_push) test_env.
Proof.
  refine (proj2 (proj1 (parse_only_after_authentication (Pl := test_platform None)
                          (signed (js "push") body_push) test_env) body_push _)).
  rewrite test_ignored_event. apply list_elem_of_here.
Defined.

(** * Further properties of the worker *)

(** ** Every run of [handle] *)

Section runs.
Context `{Pl : Platform}.
Implicit Types (req : Request) (env : Env) (event signature : jsstring).

Lemma carries_authenticated req env event signature :
  carries req event signature →
  outcome (verifySignature (req_body req) signature (GITHUB_WEBHOOK_SECRET env)) = Return true →
  authenticated req env.
Proof. intros (Hm & He & Hne & Hs & Hns) Hv. split; [done|]. by exists event, signature. Qed.

(** [handle] always takes one of the runs of [handled]. *)
Lemma handle_handled req env : handled req env (handle req env).
Proof.
  destruct (decide (req_method req = js "POST")) as [Hm|Hm];
    [|rewrite handle_not_post by done; by constructor].
  destruct (req_headers req !! js "x-github-event") as [event|] eqn:He;
    [destruct (decide (event = [])) as [->|Hne]|];
    try (rewrite handle_missing_event by (by rewrite ?He);
         apply handled_no_event; by rewrite ?He).
  destruct (req_headers req !! js "x-hub-signature-256") as [signature|] eqn:Hs;
    [destruct (decide (signature = [])) as [->|Hns]|];
    try (rewrite (handle_missing_signature req env event) by (by rewrite ?Hs);
         apply (handled_no_signature req env event); by rewrite ?Hs).
  assert (carries req event signature) as Hc by done.
  destruct (verifySignature_returns (req_body req) signature (GITHUB_WEBHOOK_SECRET env))
    as [[|] Hv].
  - rewrite (handle_authenticated req env event signature) by done.
    destruct (JSON_parse (req_body req)) as [v|] eqn:Hparse;
      [|by eapply handled_malformed].
    case_bool_decide as Hev; [|by eapply handled_ignored].
    destruct (AUTOMATION_REPO_TRIGGER_TOKEN env) as [|t0 token] eqn:Htoken.
    { eapply handled_no_token; eauto. }
    cbn [falsy]. rewrite <- Htoken.
    assert (AUTOMATION_REPO_TRIGGER_TOKEN env ≠ []) as Hnt by (by rewrite Htoken).
    destruct (JSON_stringify (dispatch_payload event v)) as [serialized|] eqn:Hser;
      [|by eapply handled_not_serialized].
    cbv zeta.
    destruct (fetch _ _) as [resp|] eqn:Hfetch;
      [destruct (ok resp) eqn:Hok|].
    + eapply handled_dispatched; eauto.
    + eapply handled_dispatch_failed; eauto.
    + eapply handled_fetch_rejected; eauto.
  - assert (outcome (verifySignature (req_body req) signature (GITHUB_WEBHOOK_SECRET env))
            ≠ Return true) as Hno by (by rewrite Hv).
    rewrite (handle_invalid_signature req env event signature) by done.
    destruct (GITHUB_WEBHOOK_SECRET env) as [|c secret] eqn:Hsecret.
    + rewrite verifySignature_no_secret. by eapply handled_not_configured.
    + rewrite verifySignature_secret by done. unfold trace. cbn [snd].
      apply (handled_invalid req env event signature); [done|by rewrite Hsecret..].
Qed.

End runs.

Section run_properties.
Context `{Pl : Platform}.
Implicit Types (req : Request) (env : Env) (event signature : jsstring).

(** Case analysis on a hypothesis [H : e ∈ [e1; ...; en]]. *)
Ltac in_trace H :=
  unfold trace in H; cbn [snd] in H;
  repeat (apply elem_of_cons in H as [H|H]);
  try (by apply elem_of_nil in H); simplify_eq.

Lemma not_configured_differs rest : not_configured ≠ js "GitHub API error: " ++ rest.
Proof. intros H. apply (f_equal (take 2)) in H. vm_compute in H. discriminate. Qed.

(** X1. An outbound call is made only for an authenticated request: whenever
    the trace of [handle] holds a [fetch], the request is a POST with both
    headers whose signature verified, its event type is one of the two
    recognized ones, its body parsed, and the trigger token is not empty; the
    call goes to the dispatch URL and carries that token and the serialization
    of that event type and parsed body. *)
Theorem fetch_requires_authorization req env url init :
  Fetch url init ∈ trace (handle req env) →
  authenticated req env
  ∧ url = dispatch_url
  ∧ AUTOMATION_REPO_TRIGGER_TOKEN env ≠ []
  ∧ ∃ event v serialized,
      req_headers req !! js "x-github-event" = Some event
      ∧ event ∈ recognized_events
      ∧ JSON_parse (req_body req) = Some v
      ∧ JSON_stringify (dispatch_payload event v) = Some serialized
      ∧ init = dispatch_init (AUTOMATION_REPO_TRIGGER_TOKEN env) serialized.
Proof.
  destruct (handle_handled req env)
    as [ | | | | | | | | | ev sg v ser Hc Hv Hp He Ht Hser Hf
       | ev sg v ser resp Hc Hv Hp He Ht Hser Hf Hok
       | ev sg v ser resp Hc Hv Hp He Ht Hser Hf Hok ];
    intros Hin; in_trace Hin.
  all: split; [by apply (carries_authenticated req env ev sg)|].
  all: split_and!; [done..|]; exists ev, v, ser; by destruct Hc as (_ & ? & _).
Qed.

(** X2. The effects of one request come in a fixed order and at most once
    each: the trace of [handle] is empty, or the single configuration report,
    or the parse of the body, followed when the event is dispatched by one
    [fetch] to the dispatch URL, followed when that fails by one error
    report. *)
Theorem trace_shape req env :
  (trace (handle req env) = []
   ∨ trace (handle req env) = [ConsoleError not_configured]
   ∨ trace (handle req env) = [JsonParse (req_body req)]
   ∨ (∃ init, trace (handle req env) = [JsonParse (req_body req); Fetch dispatch_url init])
   ∨ (∃ init msg, trace (handle req env)
                  = [JsonParse (req_body req); Fetch dispatch_url init; ConsoleError msg]))
  ∧ (length (filter is_json_parse (trace (handle req env))) ≤ 1)%nat
  ∧ (length (filter is_fetch (trace (handle req env))) ≤ 1)%nat
  ∧ (length (filter is_console_error (trace (handle req env))) ≤ 1)%nat.
Proof.
  destruct (handle_handled req env); unfold trace; cbn [snd];
    (split; [|by (split_and!; simpl; lia)]); eauto 10.
Qed.

(** X3. [handle] ends with an exception in three cases only, all of them
    after the signature verified: a [SyntaxError] when the body is not JSON
    (whatever the event type); for a recognized event with a token, a
    [RangeError] when [JSON.stringify] cannot serialize the parsed body; and a
    [TypeError] when the outbound [fetch] rejects. Every other request is
    answered. *)
Theorem handle_throws_iff req env e :
  outcome (handle req env) = Throw e ↔
  authenticated req env
  ∧ ((e = SyntaxError ∧ JSON_parse (req_body req) = None)
     ∨ (AUTOMATION_REPO_TRIGGER_TOKEN env ≠ []
        ∧ ∃ event v,
            req_headers req !! js "x-github-event" = Some event
            ∧ event ∈ recognized_events
            ∧ JSON_parse (req_body req) = Some v
            ∧ ((e = RangeError ∧ JSON_stringify (dispatch_payload event v) = None)
               ∨ (e = TypeError
                  ∧ ∃ serialized,
                      JSON_stringify (dispatch_payload event v) = Some serialized
                      ∧ fetch dispatch_url
                          (dispatch_init (AUTOMATION_REPO_TRIGGER_TOKEN env) serialized)
                        = None)))).
Proof.
  split.
  - destruct (handle_handled req env)
      as [ | | | | | ev sg Hc Hv Hp | | | ev sg v Hc Hv Hp He Ht Hser
         | ev sg v ser Hc Hv Hp He Ht Hser Hf | | ];
      unfold outcome; cbn [fst]; intros [= <-].
    + split; [by apply (carries_authenticated req env ev sg)|]. by left.
    + split; [by apply (carries_authenticated req env ev sg)|]. right. split; [done|].
      exists ev, v. destruct Hc as (_ & ? & _). split_and!; [done..|]. by left.
    + split; [by apply (carries_authenticated req env ev sg)|]. right. split; [done|].
      exists ev, v. destruct Hc as (_ & ? & _). split_and!; [done..|]. right. eauto.
  - intros [(Hm & event & signature & He & Hne & Hs & Hns & Hv) Hcase].
    rewrite (handle_authenticated req env event signature) by done.
    destruct Hcase as [[-> Hp]|(Ht & ev & v & He' & Hev & Hp & Hcase)].
    + by rewrite Hp.
    + assert (ev = event) as -> by congruence.
      rewrite Hp, bool_decide_eq_true_2 by done.
      destruct (AUTOMATION_REPO_TRIGGER_TOKEN env) as [|t0 token]; [done|].
      cbn [falsy].
      destruct Hcase as [[-> Hser]|(-> & ser & Hser & Hf)]; rewrite Hser; [done|].
      cbv zeta. by rewrite Hf.
Qed.

(** X4. What the runtime's entry point can answer: one of six fixed
    responses, or "dispatched: N" with status 200 where N is a downstream
    status in 200..299, or "dispatch failed: N" with status 500 where N is a
    downstream status outside 200..299. Nothing else of the downstream answer,
    of the token or of the secret is put in a response. *)
Theorem worker_fetch_responses request env r :
  outcome (worker_fetch request env) = Return r →
  r ∈ [ {| resp_body := js "ok"; resp_status := 200 |};
        {| resp_body := js "missing x-github-event header"; resp_status := 400 |};
        {| resp_body := js "missing x-hub-signature-256 header"; resp_status := 401 |};
        {| resp_body := js "invalid signature"; resp_status := 401 |};
        {| resp_body := js "event ignored"; resp_status := 200 |};
        {| resp_body := js "missing AUTOMATION_REPO_TRIGGER_TOKEN"; resp_status := 500 |} ]
  ∨ ∃ init resp,
      fetch dispatch_url init = Some resp
      ∧ ((200 ≤ status resp ≤ 299
          ∧ r = {| resp_body := js "dispatched: " ++ Number_toString (status resp) 10;
                   resp_status := 200 |})
         ∨ (¬ 200 ≤ status resp ≤ 299
            ∧ r = {| resp_body := js "dispatch failed: " ++ Number_toString (status resp) 10;
                     resp_status := 500 |})).
Proof.
  unfold worker_fetch.
  destruct (handle_handled request env)
    as [ | | | | | | | | | | ev sg v ser resp Hc Hv Hp He Ht Hser Hf Hok
       | ev sg v ser resp Hc Hv Hp He Ht Hser Hf Hok ];
    unfold outcome; cbn [fst]; intros [= <-];
    try (left; rewrite !elem_of_cons; by auto 10).
  - right. eexists _, resp. split; [done|]. left. split; [|done].
    unfold ok in Hok. apply andb_true_iff in Hok as [Hlo Hhi]. lia.
  - right. eexists _, resp. split; [done|]. right. split; [|done].
    unfold ok in Hok. apply andb_false_iff in Hok as [Hlo|Hhi]; lia.
Qed.

(** X13. A POST is answered 200 only when it was authenticated: without both
    headers and a signature that verifies, no POST gets a success status. *)
Theorem post_success_requires_authentication req env r :
  req_method req = js "POST" →
  outcome (handle req env) = Return r →
  resp_status r = 200 →
  authenticated req env.
Proof.
  intros Hm.
  destruct (handle_handled req env); unfold outcome; cbn [fst]; intros [= <-];
    cbn [resp_status]; intros H200; try done;
    by eapply carries_authenticated.
Qed.

(** X5. The missing secret is reported exactly when the verification is
    attempted without one: [console.error] is called with
    "GITHUB_WEBHOOK_SECRET is not configured" if and only if the request is a
    POST carrying both headers (not empty) and the configured secret is empty.
    A request rejected for a missing header does not report it. *)
Theorem not_configured_reported_iff req env :
  ConsoleError not_configured ∈ trace (handle req env) ↔
  GITHUB_WEBHOOK_SECRET env = [] ∧ ∃ event signature, carries req event signature.
Proof.
  split.
  - destruct (handle_handled req env); intros Hin; in_trace Hin; eauto;
      by edestruct not_configured_differs.
  - intros (Hsecret & event & signature & Hm & He & Hne & Hs & Hns).
    rewrite (handle_invalid_signature req env event signature); [|done..|].
    + rewrite Hsecret, verifySignature_no_secret. apply list_elem_of_here.
    + by rewrite Hsecret.
Qed.

(** X10. The trigger token reaches nobody but the dispatch endpoint: for two
    environments with the same webhook secret and two (non-empty) tokens, and
    a downstream that answers both calls alike, [handle] gives the same
    response or exception and the same [console.error] reports. *)
Theorem token_not_disclosed req env env' :
  GITHUB_WEBHOOK_SECRET env = GITHUB_WEBHOOK_SECRET env' →
  AUTOMATION_REPO_TRIGGER_TOKEN env ≠ [] →
  AUTOMATION_REPO_TRIGGER_TOKEN env' ≠ [] →
  (∀ init init', fetch dispatch_url init = fetch dispatch_url init') →
  outcome (handle req env) = outcome (handle req env')
  ∧ filter is_console_error (trace (handle req env))
    = filter is_console_error (trace (handle req env')).
Proof.
  intros Hsecret Ht Ht' Hfetch.
  destruct (decide (req_method req = js "POST")) as [Hm|Hm];
    [|by rewrite !handle_not_post by done].
  destruct (req_headers req !! js "x-github-event") as [event|] eqn:He;
    [destruct (decide (event = [])) as [->|Hne]|];
    try (by rewrite !handle_missing_event by (by rewrite ?He)).
  destruct (req_headers req !! js "x-hub-signature-256") as [signature|] eqn:Hs;
    [destruct (decide (signature = [])) as [->|Hns]|];
    try (by rewrite !(handle_missing_signature req _ event) by (by rewrite ?Hs)).
  destruct (verifySignature_returns (req_body req) signature (GITHUB_WEBHOOK_SECRET env))
    as [[|] Hv].
  - rewrite (handle_authenticated req env event signature) by done.
    rewrite (handle_authenticated req env' event signature) by (by rewrite <- ?Hsecret).
    destruct (JSON_parse (req_body req)) as [v|]; [|done].
    case_bool_decide; [|done].
    destruct (AUTOMATION_REPO_TRIGGER_TOKEN env) as [|t0 token]; [done|].
    destruct (AUTOMATION_REPO_TRIGGER_TOKEN env') as [|t0' token']; [done|].
    cbn [falsy].
    destruct (JSON_stringify (dispatch_payload event v)) as [serialized|]; [|done].
    cbv zeta.
    rewrite (Hfetch (dispatch_init (t0 :: token) serialized)
               (dispatch_init (t0' :: token') serialized)).
    destruct (fetch _ _) as [resp|]; [destruct (ok resp)|]; done.
  - assert (outcome (verifySignature (req_body req) signature (GITHUB_WEBHOOK_SECRET env))
            ≠ Return true) as Hno by (by rewrite Hv).
    rewrite (handle_invalid_signature req env event signature) by done.
    rewrite (handle_invalid_signature req env' event signature) by (by rewrite <- ?Hsecret).
    by rewrite Hsecret.
Qed.

(** X11. The signature does not cover the event type: the HMAC is computed
    over the body alone, so an authenticated request stays authenticated when
    its [x-github-event] header is replaced, and with a recognized event type
    put there (and a parsed body that [JSON.stringify] can serialize under
    that type) it is dispatched under that type. *)
Theorem event_header_not_signed req env event v serialized :
  authenticated req env →
  event ∈ recognized_events →
  JSON_parse (req_body req) = Some v →
  AUTOMATION_REPO_TRIGGER_TOKEN env ≠ [] →
  JSON_stringify (dispatch_payload event v) = Some serialized →
  authenticated (with_event event req) env
  ∧ filter is_fetch (trace (handle (with_event event req) env))
    = [Fetch dispatch_url (dispatch_init (AUTOMATION_REPO_TRIGGER_TOKEN env) serialized)].
Proof.
  intros (Hm & event0 & signature & He0 & Hne0 & Hs & Hns & Hv) Hev Hp Ht Hser.
  pose proof (recognized_event_nonempty _ Hev) as Hne.
  assert (req_headers (with_event event req) !! js "x-github-event" = Some event) as He
    by apply lookup_insert_eq.
  assert (req_headers (with_event event req) !! js "x-hub-signature-256" = Some signature)
    as Hs'.
  { unfold with_event. cbn [req_headers].
    rewrite lookup_insert_ne by apply event_header_differs. done. }
  split.
  - split; [done|]. by exists event, signature.
  - rewrite (handle_authenticated (with_event event req) env event signature) by done.
    cbn [with_event req_body]. rewrite Hp, bool_decide_eq_true_2 by done.
    destruct (AUTOMATION_REPO_TRIGGER_TOKEN env) as [|t0 token]; [done|].
    cbn [falsy]. rewrite Hser. cbv zeta.
    destruct (fetch _ _) as [resp|]; [destruct (ok resp)|]; done.
Qed.

End run_properties.

(** ** Which signature headers [verifySignature] accepts *)

Lemma strip_prefix_Some (pat : jsstring) : ∀ (s rest : jsstring),
  strip_prefix pat s = Some rest → s = pat ++ rest.
Proof.
  induction pat as [|p pat IH]; intros s rest; simpl.
  - by intros [= ->].
  - destruct s as [|c s]; [done|].
    case_decide as Hpc; [|done]. subst c. intros Hrest. f_equal. by apply IH.
Qed.

(** [replace] either leaves the string alone or cuts one occurrence out. *)
Lemma String_replace_cases (pat rep s : jsstring) :
  String_replace s pat rep = s
  ∨ ∃ x y, s = x ++ pat ++ y ∧ String_replace s pat rep = x ++ rep ++ y.
Proof.
  induction s as [|c s IH]; rewrite String_replace_eq.
  - destruct (strip_prefix pat []) as [rest|] eqn:Hstrip; [|by left].
    right. exists [], rest. simpl. split; [by apply strip_prefix_Some|reflexivity].
  - destruct (strip_prefix pat (c :: s)) as [rest|] eqn:Hstrip.
    + right. exists [], rest. simpl. split; [by apply strip_prefix_Some|reflexivity].
    + destruct IH as [->|(x & y & -> & ->)]; [by left|].
      right. by exists (c :: x), y.
Qed.

Section accepted.
Context `{Pl : Platform}.
Implicit Types B S signature : jsstring.

Lemma replace_marker_bare S B :
  String_replace (hmac_hex S B) sha256_marker [] = hmac_hex S B.
Proof. apply String_replace_absent, hex_digit_not_s, hex_of_bytes_digits. Qed.

Lemma replace_marker_inside S B k :
  String_replace (take k (hmac_hex S B) ++ sha256_marker ++ drop k (hmac_hex S B))
    sha256_marker []
  = hmac_hex S B.
Proof.
  unfold sha256_marker. rewrite String_replace_inside.
  - simpl. apply take_drop.
  - apply hex_digit_not_s, Forall_take, hex_of_bytes_digits.
Qed.

Lemma timingSafeEqual_true_length (a b : jsstring) :
  timingSafeEqual a b = true → length a = length b.
Proof.
  intros Htrue. destruct (decide (length a = length b)) as [|Hne]; [done|].
  by rewrite timingSafeEqual_length in Htrue.
Qed.

(** X6. The [sha256=] prefix is optional: with a configured secret, a header
    that holds the bare hex digest of the body, without the prefix, is
    accepted. *)
Theorem bare_digest_accepted B S :
  S ≠ [] → verifySignature B (hmac_hex S B) S = (Return true, []).
Proof.
  intros HS. rewrite verifySignature_secret, replace_marker_bare by done.
  do 2 f_equal. apply timingSafeEqual_true_iff; [apply hex_of_bytes_wf..|done].
Qed.

(** X7. The headers that verify, all of them: for a header made of code units,
    [verifySignature] returns true if and only if the secret is not empty and
    the header is the lower-case hex digest of the body, either bare or with
    one [sha256=] inserted at some position [k] of it ([k = 0] is GitHub's
    format). *)
Theorem accepted_signatures B S signature :
  wf_string signature →
  outcome (verifySignature B signature S) = Return true ↔
  S ≠ []
  ∧ (signature = hmac_hex S B
     ∨ ∃ k, signature = take k (hmac_hex S B) ++ sha256_marker ++ drop k (hmac_hex S B)).
Proof.
  intros Hwf.
  assert (wf_string (String_replace signature sha256_marker [])) as Hwf'.
  { destruct (String_replace_cases sha256_marker [] signature)
      as [->|(x & y & -> & ->)]; [done|].
    apply Forall_app in Hwf as [Hx Hy]. apply Forall_app in Hy as [_ Hy].
    by apply Forall_app. }
  rewrite verifySignature_true by done. split.
  - intros [HS Hhex]. split; [done|].
    destruct (String_replace_cases sha256_marker [] signature)
      as [Hsame|(x & y & -> & Hcut)].
    + left. by rewrite <- Hhex, Hsame.
    + right. exists (length x). rewrite <- Hhex, Hcut. simpl.
      by rewrite take_app_length, drop_app_length.
  - intros [HS [->|[k ->]]]; (split; [done|]).
    + apply replace_marker_bare.
    + apply replace_marker_inside.
Qed.

(** X8. An accepted header has 64 or 71 characters: when HMAC-SHA256 tags
    have 32 bytes, a header of any other length is rejected. *)
Theorem accepted_signature_length B S signature :
  sha256_sized Pl →
  outcome (verifySignature B signature S) = Return true →
  length signature = 64%nat ∨ length signature = 71%nat.
Proof.
  intros Hsize Hv. destruct S as [|c S]; [done|].
  rewrite verifySignature_secret in Hv by done.
  unfold outcome in Hv. cbn [fst] in Hv. injection Hv as Hv.
  apply timingSafeEqual_true_length in Hv.
  unfold hmac_hex in Hv. rewrite hex_of_bytes_length, Hsize in Hv.
  destruct (String_replace_cases sha256_marker [] signature)
    as [Hsame|(x & y & -> & Hcut)].
  - left. by rewrite <- Hsame, <- Hv.
  - right. rewrite Hcut in Hv. rewrite !length_app in *. simpl in *. lia.
Qed.

End accepted.

(** X9. The hex digest can be read back: [hex_of_bytes] writes two lower-case
    hex digits per byte, and decoding them pair by pair gives the bytes
    again (so different digests never print alike). *)
Theorem hex_of_bytes_roundtrip (bs : list byte) :
  bytes_of_hex (hex_of_bytes bs) = bs
  ∧ length (hex_of_bytes bs) = (2 * length bs)%nat
  ∧ Forall is_hex_digit (hex_of_bytes bs).
Proof.
  split_and!; [|apply hex_of_bytes_length|apply hex_of_bytes_digits].
  induction bs as [|b bs IH]; [done|].
  rewrite hex_of_bytes_cons.
  destruct (hex_of_byte_pair b) as (hi & lo & Hb). rewrite Hb. cbn [app bytes_of_hex].
  by rewrite <- Hb, byte_of_hex_of_byte, IH.
Qed.

(** ** Instances of the further properties *)

Example test_dispatched_run :
  handle (Pl := test_platform no_content) (signed (js "installation") body_created) test_env
  = (Return {| resp_body := js "dispatched: 204"; resp_status := 200 |},
     [JsonParse body_created; Fetch dispatch_url (dispatch_init (js "test-token-123") created_text)]).
Proof. vm_compute. reflexivity. Qed.

Lemma signed_push_authenticated downstream :
  authenticated (Pl := test_platform downstream) (signed (js "push") body_push) test_env.
Proof.
  split; [reflexivity|].
  exists (js "push"), (generateSignature (Pl := test_platform None) body_push WEBHOOK_SECRET).
  split_and!; try discriminate; vm_compute; reflexivity.
Qed.

Lemma fetch_requires_authorization_witness :
  authenticated (Pl := test_platform no_content) (signed (js "installation") body_created)
    test_env.
Proof.
  refine (proj1 (fetch_requires_authorization (Pl := test_platform no_content)
                   (signed (js "installation") body_created) test_env dispatch_url
                   (dispatch_init (js "test-token-123") created_text) _)).
  rewrite test_dispatched_run. unfold trace. cbn [snd].
  apply list_elem_of_further, list_elem_of_here.
Defined.

Lemma worker_fetch_responses_witness :
  {| resp_body := js "dispatched: 204"; resp_status := 200 |}
  ∈ [ {| resp_body := js "ok"; resp_status := 200 |};
      {| resp_body := js "missing x-github-event header"; resp_status := 400 |};
      {| resp_body := js "missing x-hub-signature-256 header"; resp_status := 401 |};
      {| resp_body := js "invalid signature"; resp_status := 401 |};
      {| resp_body := js "event ignored"; resp_status := 200 |};
      {| resp_body := js "missing AUTOMATION_REPO_TRIGGER_TOKEN"; resp_status := 500 |} ]
  ∨ ∃ init resp,
      fetch (Platform := test_platform no_content) dispatch_url init = Some resp
      ∧ ((200 ≤ status resp ≤ 299
          ∧ {| resp_body := js "dispatched: 204"; resp_status := 200 |}
            = {| resp_body := js "dispatched: " ++ Number_toString (status resp) 10;
                 resp_status := 200 |})
         ∨ (¬ 200 ≤ status resp ≤ 299
            ∧ {| resp_body := js "dispatched: 204"; resp_status := 200 |}
              = {| resp_body := js "dispatch failed: " ++ Number_toString (status resp) 10;
                   resp_status := 500 |})).
Proof.
  refine (worker_fetch_responses (Pl := test_platform no_content)
            (signed (js "installation") body_created) test_env _ _).
  unfold worker_fetch. by rewrite test_dispatched_run.
Defined.

Lemma post_success_requires_authentication_witness :
  authenticated (Pl := test_platform None) (signed (js "push") body_push) test_env.
Proof.
  refine (post_success_requires_authentication (Pl := test_platform None)
            (signed (js "push") body_push) test_env
            {| resp_body := js "event ignored"; resp_status := 200 |} _ _ _).
  - reflexivity.
  - by rewrite test_ignored_event.
  - reflexivity.
Defined.

Lemma bare_digest_accepted_witness :
  verifySignature (Pl := test_platform None) body_created
    (hmac_hex (Pl := test_platform None) WEBHOOK_SECRET body_created) WEBHOOK_SECRET
  = (Return true, []).
Proof.
  refine (bare_digest_accepted (Pl := test_platform None) body_created WEBHOOK_SECRET _).
  discriminate.
Defined.

Lemma accepted_signatures_witness :
  WEBHOOK_SECRET ≠ []
  ∧ (js "sha256=293d873649d99f21da446dd18c93b40c0932b30f40cf8f000d5ba9545977edd1"
     = hmac_hex (Pl := test_platform None) WEBHOOK_SECRET body_created
     ∨ ∃ k, js "sha256=293d873649d99f21da446dd18c93b40c0932b30f40cf8f000d5ba9545977edd1"
            = take k (hmac_hex (Pl := test_platform None) WEBHOOK_SECRET body_created)
                ++ sha256_marker
                ++ drop k (hmac_hex (Pl := test_platform None) WEBHOOK_SECRET body_created)).
Proof.
  refine (proj1 (accepted_signatures (Pl := test_platform None) body_created WEBHOOK_SECRET
                   (js "sha256=293d873649d99f21da446dd18c93b40c0932b30f40cf8f000d5ba9545977edd1")
                   _) _).
  - apply (bool_decide_unpack _). vm_compute. exact I.
  - vm_compute. reflexivity.
Defined.

Lemma accepted_signature_length_witness :
  length (generateSignature (Pl := test_platform None) body_created WEBHOOK_SECRET) = 64%nat
  ∨ length (generateSignature (Pl := test_platform None) body_created WEBHOOK_SECRET) = 71%nat.
Proof.
  refine (accepted_signature_length (Pl := test_platform None) body_created WEBHOOK_SECRET
            _ _ _).
  - apply test_platform_sized.
  - vm_compute. reflexivity.
Defined.

Lemma token_not_disclosed_witness :
  outcome (handle (Pl := test_platform unauthorized)
             (signed (js "installation") body_created) test_env)
  = outcome (handle (Pl := test_platform unauthorized)
               (signed (js "installation") body_created) other_token_env)
  ∧ filter is_console_error
      (trace (handle (Pl := test_platform unauthorized)
                (signed (js "installation") body_created) test_env))
    = filter is_console_error
        (trace (handle (Pl := test_platform unauthorized)
                  (signed (js "installation") body_created) other_token_env)).
Proof.
  refine (token_not_disclosed (Pl := test_platform unauthorized)
            (signed (js "installation") body_created) test_env other_token_env _ _ _ _).
  - reflexivity.
  - discriminate.
  - discriminate.
  - reflexivity.
Defined.

Lemma event_header_not_signed_witness :
  authenticated (Pl := test_platform no_content)
    (with_event (js "installation") (signed (js "push") body_push)) test_env
  ∧ filter is_fetch
      (trace (handle (Pl := test_platform no_content)
                (with_event (js "installation") (signed (js "push") body_push)) test_env))
    = [Fetch dispatch_url
         (dispatch_init (js "test-token-123")
            (json_text
               (DispatchPayload_json
                  (dispatch_payload (Pl := test_platform no_content) (js "installation")
                     (JObject [(js "ref", JString (js "refs/heads/main"))])))))].
Proof.
  refine (event_header_not_signed (Pl := test_platform no_content)
            (signed (js "push") body_push) test_env (js "installation")
            (JObject [(js "ref", JString (js "refs/heads/main"))]) _ _ _ _ _ _).
  - apply signed_push_authenticated.
  - apply list_elem_of_here.
  - vm_compute. reflexivity.
  - discriminate.
  - vm_compute. reflexivity.
Defined.

